(** * Pivot calibration: a shallow embedding of
      [sksurgerycalibration/algorithms/pivot.py]

    The module has four functions: the dispatcher [pivot_calibration], the
    closed-form solver [pivot_calibration_aos] (Algebraic One Step), the rank
    estimator [replace_small_values] and the robust estimator
    [pivot_calibration_with_ransac].

    Modelling choices.
    - A Python [float] is an IEEE 754 binary64 number, here a primitive
      [float]; comparisons are the boolean [<?] of [PrimFloat], so a NaN is
      neither below nor above anything, as in Python.
    - A numpy array is its [shape] tuple and its elements in row-major order.
      Two-dimensional intermediate arrays are lists of rows.
    - Exceptions are values: the Python class and the argument tuple.
    - [numpy.linalg.svd] and the random generator are not code of this
      module; they are parameters of the development.  The sums inside
      [numpy.dot], [numpy.sum] and [numpy.linalg.norm] are taken from left
      to right.
    - [print] appends an event to the standard output of the [world]. *)

From Stdlib Require Import String ZArith Bool Lia PeanoNat List.
From Stdlib Require Import Floats Uint63.
Import ListNotations.

Set Warnings "-inexact-float".

Local Open Scope list_scope.

(** ** Exceptions and results *)

Inductive exn : Type :=
| TypeError (args : list string)
| ValueError (args : list string)
| IndexError (args : list string).

Inductive result (A : Type) : Type :=
| Ok (a : A)
| Raise (e : exn).

Arguments Ok {A} a.
Arguments Raise {A} e.

Definition bind {A B : Type} (r : result A) (k : A -> result B) : result B :=
  match r with
  | Ok a => k a
  | Raise e => Raise e
  end.

Notation "x <- r ;; k" := (bind r (fun x => k))
  (at level 61, r at next level, right associativity).

(** [except ValueError]: does the handler catch this exception? *)
Definition is_ValueError (e : exn) : bool :=
  match e with
  | ValueError _ => true
  | _ => false
  end.

(** ** numpy arrays *)

Record ndarray : Type := mk_ndarray {
  shape : list nat;
  data : list float
}.

Definition size (s : list nat) : nat := fold_right Nat.mul 1 s.

(** Every numpy array holds as many elements as its shape says. *)
Definition wf (a : ndarray) : Prop := length (data a) = size (shape a).

(** What [isinstance(x, np.ndarray)] tells apart. *)
Inductive pyobj : Type :=
| PyArray (a : ndarray)
| PyOther.

Abbreviation matrix := (list (list float)).

(** [a.shape[k]] *)
Definition shape_at (a : ndarray) (k : nat) : result nat :=
  match nth_error (shape a) k with
  | Some d => Ok d
  | None => Raise (IndexError ["tuple index out of range"%string])
  end.

(** The block of trailing elements at index [(i, j, k)] of an array of shape
    [_ :: d1 :: d2 :: rest], where [r = size rest]. *)
Definition cell (a : ndarray) (d1 d2 r i j k : nat) : list float :=
  firstn r (skipn (((i * d1 + j) * d2 + k) * r) (data a)).

(** [a.reshape((r, c))] of the elements [l] *)
Fixpoint chunks (r c : nat) (l : list float) : matrix :=
  match r with
  | 0 => []
  | S r' => firstn c l :: chunks r' c (skipn c l)
  end.

Definition reshape2 (r c : nat) (l : list float) : result matrix :=
  if length l =? r * c then Ok (chunks r c l)
  else Raise (ValueError ["cannot reshape array"%string]).

(** [a[:, 0:3, 0:3]], flattened *)
Definition slice_rotations (a : ndarray) : result (list float) :=
  match shape a with
  | n :: d1 :: d2 :: rest =>
      Ok (flat_map (fun i =>
            flat_map (fun j =>
              flat_map (fun k => cell a d1 d2 (size rest) i j k)
                       (seq 0 (Nat.min 3 d2)))
              (seq 0 (Nat.min 3 d1)))
            (seq 0 n))
  | _ => Raise (IndexError ["too many indices for array"%string])
  end.

(** [a[:, 0:3, 3]], flattened *)
Definition slice_translations (a : ndarray) : result (list float) :=
  match shape a with
  | n :: d1 :: d2 :: rest =>
      if 3 <? d2 then
        Ok (flat_map (fun i =>
              flat_map (fun j => cell a d1 d2 (size rest) i j 3)
                (seq 0 (Nat.min 3 d1)))
              (seq 0 n))
      else Raise (IndexError ["index 3 is out of bounds for axis 2"%string])
  | _ => Raise (IndexError ["too many indices for array"%string])
  end.

(** [a[idx]] for a list of indices along the first axis *)
Definition take_rows (a : ndarray) (idx : list nat) : result ndarray :=
  match shape a with
  | n :: rest =>
      if forallb (fun i => i <? n) idx then
        Ok {| shape := length idx :: rest;
              data := flat_map (fun i => firstn (size rest)
                                           (skipn (i * size rest) (data a)))
                               idx |}
      else Raise (IndexError ["index is out of bounds for axis 0"%string])
  | [] => Raise (IndexError ["too many indices for array"%string])
  end.

(** ** Dense linear algebra on lists of rows *)

Local Open Scope float_scope.

Definition eye (n : nat) : matrix :=
  map (fun i => map (fun j => if Nat.eqb i j then 1 else 0) (seq 0 n))
      (seq 0 n).

Definition scale (m : matrix) (k : float) : matrix :=
  map (map (fun v => v * k)) m.

(** [np.concatenate((m1, m2), axis=1)] *)
Definition concatenate1 (m1 m2 : matrix) : matrix :=
  map (fun p => fst p ++ snd p) (combine m1 m2).

Definition col (j : nat) (m : matrix) : list float :=
  map (fun row => nth j row 0) m.

(** [m.T] of a matrix with [c] columns *)
Definition transpose (c : nat) (m : matrix) : matrix :=
  map (fun j => col j m) (seq 0 c).

Definition dotp (u v : list float) : float :=
  fold_left (fun acc p => acc + fst p * snd p) (combine u v) 0.

(** [np.dot(a, b)] for [b] with [c] columns *)
Definition dot (c : nat) (a b : matrix) : matrix :=
  map (fun row => map (fun j => dotp row (col j b)) (seq 0 c)) a.

(** [np.diag(v)] *)
Definition diag (v : list float) : matrix :=
  map (fun i => map (fun j => if Nat.eqb i j then nth i v 0 else 0)
                    (seq 0 (length v)))
      (seq 0 (length v)).

(** elementwise [a - b] and [a * b] on arrays of one shape *)
Definition map2 (f : float -> float -> float) (a b : matrix) : matrix :=
  map (fun p => map (fun q => f (fst q) (snd q)) (combine (fst p) (snd p)))
      (combine a b).

(** [np.sum(m)] *)
Definition np_sum (m : matrix) : float :=
  fold_left PrimFloat.add (concat m) 0.

(** [np.linalg.norm(m)]: the Frobenius norm *)
Definition norm (m : matrix) : float :=
  PrimFloat.sqrt (np_sum (map2 PrimFloat.mul m m)).

(** [float(n)] of a Python integer below 2^53 *)
Definition float_of_nat (n : nat) : float :=
  PrimFloat.of_uint63 (Uint63.of_Z (Z.of_nat n)).

(** ** Rank estimator *)

(** [the_list[index] = v]; the index is always in range where it is used. *)
Fixpoint set_item (the_list : list float) (index : nat) (v : float)
    : list float :=
  match the_list, index with
  | [], _ => []
  | _ :: tl, O => v :: tl
  | x :: tl, S i => x :: set_item tl i v
  end.

Definition enumerate (l : list float) : list (nat * float) :=
  combine (seq 0 (length l)) l.

(** [replace_small_values(the_list, threshold, replacement_value)]: the
    count returned, and the list as the in-place update leaves it. *)
Definition replace_small_values (the_list : list float)
    (threshold replacement_value : float) : nat * list float :=
  fold_left
    (fun (st : nat * list float) (ix : nat * float) =>
       let (rank, the_list) := st in
       let (index, item) := ix in
       if item <? threshold
       then (rank, set_item the_list index replacement_value)
       else (S rank, the_list))
    (enumerate the_list) (0%nat, the_list).

(** The three values every solver returns. *)
Definition calibration : Type := (matrix * matrix * float)%type.

Definition msg_rank : string := "PivotCalibration: Failed. Rank < 6".
Definition msg_not_array : string := "tracking_matrices is not a numpy array'".
Definition msg_rows : string := "tracking_matrices should have 4 rows per matrix".
Definition msg_columns : string :=
  "tracking_matrices should have 4 columns per matrix".
Definition msg_unknown_method : string := "method key set to unknown method; ".
Definition msg_iterations : string := "The number of iterations must be > 1".
Definition msg_error_threshold : string :=
  "The error threshold must be a positive distance.".
Definition msg_concensus : string :=
  "The concensus threshold must be [0-1] as percentage".
Definition msg_no_model : string := "Failed to find a model using RANSAC.".
Definition msg_sample : string := "Sample larger than population or is negative".

(** ** Reading a pose array of shape [n; 4; 4] *)

(** [tracking_matrices[i, j, k]] *)
Definition entry (a : ndarray) (i j k : nat) : float :=
  nth ((i * 4 + j) * 4 + k) (data a) 0.

(** [tracking_matrices[i, 0:3, 0:3]], the rotation block of pose [i] *)
Definition rotation (a : ndarray) (i : nat) : matrix :=
  map (fun j => map (fun k => entry a i j k) (seq 0 3)) (seq 0 3).

(** [tracking_matrices[i, 0:3, 3]] as a column, the translation of pose [i] *)
Definition translation (a : ndarray) (i : nat) : matrix :=
  map (fun j => [entry a i j 3]) (seq 0 3).

(** [tracking_matrices[i]] *)
Definition pose (a : ndarray) (i : nat) : matrix :=
  map (fun j => map (fun k => entry a i j k) (seq 0 4)) (seq 0 4).

(** [-Identity], as [np.eye(3) * -1.0] computes it *)
Definition neg_identity : matrix := scale (eye 3) (-1).

(** The distance from pose [i] applied to a candidate pointer offset to the
    candidate pivot location. *)
Definition distance (a : ndarray) (pointer_offset pivot_location : matrix)
    (i : nat) : float :=
  norm (map2 PrimFloat.sub pivot_location
          (firstn 3 (dot 1 (pose a i) (pointer_offset ++ [[1]])))).

Definition inliers (a : ndarray) (pointer_offset pivot_location : matrix)
    (error_threshold : float) (n : nat) : list nat :=
  filter (fun i => distance a pointer_offset pivot_location i <? error_threshold)
         (seq 0 n).

(** The stacked system of a pose array: one block of three rows per pose. *)
Definition stacked_a (a : ndarray) (n : nat) : matrix :=
  flat_map (fun i => concatenate1 (rotation a i) neg_identity) (seq 0 n).

Definition stacked_b (a : ndarray) (n : nat) : matrix :=
  flat_map (fun i => scale (translation a i) (-1)) (seq 0 n).

(** ** The error kinds of the specification, read on the [raise] statements *)

Inductive error_kind : Type :=
| ShapeError
| ConfigError
| DegenerateInputError
| NoConsensusError.

Definition one_of (m : string) (l : list string) : bool :=
  existsb (String.eqb m) l.

(** The kind of an exception, by the statement that raises it; [None] for an
    exception that no [raise] statement of the module produces. *)
Definition kind_of (e : exn) : option error_kind :=
  match e with
  | TypeError [m] =>
      if one_of m [msg_not_array] then Some ShapeError else None
  | ValueError [m] =>
      if one_of m [msg_rows; msg_columns] then Some ShapeError
      else if one_of m [msg_iterations; msg_error_threshold; msg_concensus]
      then Some ConfigError
      else if one_of m [msg_rank] then Some DegenerateInputError
      else if one_of m [msg_no_model] then Some NoConsensusError
      else None
  | ValueError [m; _] =>
      if one_of m [msg_unknown_method] then Some ConfigError else None
  | _ => None
  end.

Section Calibration.

(** [np.linalg.svd(a, full_matrices=False)]: [u], the singular values and
    [vh]. *)
Variable svd : matrix -> matrix * list float * matrix.

(** ** Closed-form solver *)

(** [a_values] and [b_values], lines 76 to 91 *)
Definition aos_system (tracking_matrices : ndarray) : result (matrix * matrix) :=
  number_of_matrices <- shape_at tracking_matrices 0 ;;
  rot <- slice_rotations tracking_matrices ;;
  a_first <- reshape2 (3 * number_of_matrices) 3 rot ;;
  let a_second := concat (repeat (scale (eye 3) (-1)) number_of_matrices) in
  let a_values := concatenate1 a_first a_second in
  tra <- slice_translations tracking_matrices ;;
  b_values <- reshape2 (3 * number_of_matrices) 1
                (map (fun v => v * (-1)) tra) ;;
  Ok (a_values, b_values).

(** [1 / s_values], line 97: the reciprocals of the singular values as
    [svd] returned them *)
Definition aos_reciprocals (a_values : matrix) : list float :=
  let '(_, s_values, _) := svd a_values in
  map (fun s => 1 / s) s_values.

(** [x_values], lines 95 to 98; [u_values] has one column and [v_values]
    one row for each singular value, and [v_values] has six columns *)
Definition aos_solution (a_values b_values : matrix) : matrix :=
  let '(u_values, s_values, v_values) := svd a_values in
  let c_values := dot 1 (transpose (List.length s_values) u_values) b_values in
  let w_values := dot 1 (diag (aos_reciprocals a_values)) c_values in
  dot 1 (transpose 6 v_values) w_values.

(** The solve as the specification words it: the reciprocal is taken only of
    a singular value that is not below 0.01, and a zeroed singular value
    contributes zero. *)
Definition aos_solution_spec (a_values b_values : matrix) : matrix :=
  let '(u_values, s_values, v_values) := svd a_values in
  let c_values := dot 1 (transpose (List.length s_values) u_values) b_values in
  let w_values :=
    dot 1 (diag (map (fun s => if s <? 0.01 then 0 else 1 / s) s_values))
        c_values in
  dot 1 (transpose 6 v_values) w_values.

(** [rank] and [s_values] after line 101 *)
Definition aos_rank (a_values : matrix) : nat * list float :=
  let '(_, s_values, _) := svd a_values in
  replace_small_values s_values 0.01 0.

(** The singular values of a stacked system, as [svd] returns them. *)
Definition singular_values (a_values : matrix) : list float :=
  snd (fst (svd a_values)).

(** The numerical rank: the number of singular values not below 0.01. *)
Definition numerical_rank (a_values : matrix) : nat :=
  List.length (filter (fun s => negb (s <? 0.01)) (singular_values a_values)).

(** lines 109 to 112 *)
Definition aos_residual (number_of_matrices : nat)
    (a_values x_values b_values : matrix) : float :=
  let residual_matrix := map2 PrimFloat.sub (dot 1 a_values x_values) b_values in
  let residual_error := np_sum (map2 PrimFloat.mul residual_matrix residual_matrix) in
  let residual_error := residual_error / float_of_nat (number_of_matrices * 3) in
  PrimFloat.sqrt residual_error.

Definition pivot_calibration_aos (tracking_matrices : ndarray)
    : result calibration :=
  number_of_matrices <- shape_at tracking_matrices 0 ;;
  sys <- aos_system tracking_matrices ;;
  let '(a_values, b_values) := sys in
  let x_values := aos_solution a_values b_values in
  let (rank, _) := aos_rank a_values in
  if (rank <? 6)%nat then Raise (ValueError [msg_rank])
  else
    let pointer_offset := firstn 3 x_values in
    let pivot_location := firstn 3 (skipn 3 x_values) in
    Ok (pointer_offset, pivot_location,
        aos_residual number_of_matrices a_values x_values b_values).

(** ** Dispatcher, without a configuration *)

(** lines 26 to 33 *)
Definition structural_check (tracking_matrices : pyobj) : result ndarray :=
  match tracking_matrices with
  | PyOther => Raise (TypeError [msg_not_array])
  | PyArray a =>
      d1 <- shape_at a 1 ;;
      if negb (d1 =? 4)%nat then Raise (ValueError [msg_rows])
      else
        d2 <- shape_at a 2 ;;
        if negb (d2 =? 4)%nat then Raise (ValueError [msg_columns])
        else Ok a
  end.

(** [pivot_calibration(tracking_matrices)], the call with
    [configuration=None] that the robust estimator makes. *)
Definition pivot_calibration_none (tracking_matrices : pyobj)
    : result calibration :=
  a <- structural_check tracking_matrices ;;
  pivot_calibration_aos a.

(** ** Robust estimator *)

(** The state of Python's random generator, and one draw of
    [random.sample(range(n), k)] for [k <= n]. *)
Variable generator : Type.
Variable sample_draw : generator -> nat -> nat -> list nat * generator.

Inductive event : Type :=
| PrintIterationFailed (iter_counter : nat)
| PrintSummary (number_of_matrices : nat) (used : Z)
               (error_threshold concensus_threshold : float).

Record world : Type := mk_world {
  rng : generator;
  stdout : list event
}.

Definition print (e : event) (w : world) : world :=
  {| rng := rng w; stdout := stdout w ++ [e] |}.

(** [random.sample(population, k)] on a range of [n] indices *)
Definition random_sample (n k : nat) (w : world) : result (list nat) * world :=
  if (n <? k)%nat then (Raise (ValueError [msg_sample]), w)
  else
    let (indexes, g) := sample_draw (rng w) n k in
    (Ok indexes, {| rng := g; stdout := stdout w |}).

(** What [RANSAC] returns: the three [best_] variables, of which the first
    two start as [None]. *)
Definition model : Type := (option matrix * option matrix * float)%type.

Definition model_of (c : calibration) : model :=
  let '(pointer_offset, pivot_location, residual_error) := c in
  (Some pointer_offset, Some pivot_location, residual_error).

Record ransac_state : Type := mk_state {
  highest_number_of_inliers : Z;
  best_pointer_offset : option matrix;
  best_pivot_location : option matrix;
  best_residual_error : float
}.

Definition best_model (st : ransac_state) : model :=
  (best_pointer_offset st, best_pivot_location st, best_residual_error st).

(** [tracking_matrices[matrix_counter] @ offset] for an [offset] of shape
    (4, 1).  With trailing axes the inner dimensions do not agree. *)
Definition pose_matmul (a : ndarray) (matrix_counter : nat) (offset : matrix)
    : result matrix :=
  match shape a with
  | _ :: d1 :: d2 :: [] =>
      if (d2 =? 4)%nat then
        Ok (dot 1 (map (fun j => concat (map (fun k => cell a d1 d2 1 matrix_counter j k)
                                             (seq 0 d2)))
                       (seq 0 d1))
                  offset)
      else Raise (ValueError ["matmul: mismatch in core dimension"%string])
  | _ => Raise (ValueError ["matmul: mismatch in core dimension"%string])
  end.

(** lines 184 to 193: the inner loop over [range(number_of_matrices)], with
    its two accumulators *)
Fixpoint score (a : ndarray) (pointer_offset pivot_location : matrix)
    (error_threshold : float) (counters : list nat)
    (number_of_inliers : nat) (inlier_indices : list nat)
    : result (nat * list nat) :=
  match counters with
  | [] => Ok (number_of_inliers, inlier_indices)
  | matrix_counter :: rest =>
      let offset := pointer_offset ++ [[1]] in
      transformed_point <- pose_matmul a matrix_counter offset ;;
      let diff := map2 PrimFloat.sub pivot_location (firstn 3 transformed_point) in
      if norm diff <? error_threshold
      then score a pointer_offset pivot_location error_threshold rest
             (S number_of_inliers) (inlier_indices ++ [matrix_counter])
      else score a pointer_offset pivot_location error_threshold rest
             number_of_inliers inlier_indices
  end.

(** [number_of_inliers / number_of_matrices], line 195 *)
Definition percentage (k n : nat) : float := float_of_nat k / float_of_nat n.

(** How one pass through the body of the [for] loop ends. *)
Inductive flow : Type :=
| Next (st : ransac_state)
| Return (m : model)
| Throw (e : exn).

(** lines 172 to 207 *)
Definition ransac_iteration (a : ndarray) (number_of_matrices : nat)
    (error_threshold concensus_threshold : float) (early_exit : bool)
    (iter_counter : nat) (st : ransac_state) (w : world) : flow * world :=
  let (drawn, w) := random_sample number_of_matrices 3 w in
  match drawn with
  | Raise e => (Throw e, w)
  | Ok indexes =>
    match take_rows a indexes with
    | Raise e => (Throw e, w)
    | Ok sample =>
      match pivot_calibration_none (PyArray sample) with
      | Raise e =>
          if is_ValueError e
          then (Next st, print (PrintIterationFailed iter_counter) w)
          else (Throw e, w)
      | Ok (pointer_offset, pivot_location, _) =>
        match score a pointer_offset pivot_location error_threshold
                    (seq 0 number_of_matrices) 0%nat [] with
        | Raise e => (Throw e, w)
        | Ok (number_of_inliers, inlier_indices) =>
          let percentage_inliers :=
            percentage number_of_inliers number_of_matrices in
          let refit :=
            if (concensus_threshold <? percentage_inliers)
               && (highest_number_of_inliers st <? Z.of_nat number_of_inliers)%Z
            then
              inlier_matrices <- take_rows a inlier_indices ;;
              c <- pivot_calibration_none (PyArray inlier_matrices) ;;
              let '(bpo, bpl, bre) := c in
              Ok {| highest_number_of_inliers := Z.of_nat number_of_inliers;
                    best_pointer_offset := Some bpo;
                    best_pivot_location := Some bpl;
                    best_residual_error := bre |}
            else Ok st in
          match refit with
          | Raise e => (Throw e, w)
          | Ok st' =>
              if (concensus_threshold <? percentage_inliers) && early_exit
              then (Return (best_model st'), w)
              else (Next st', w)
          end
        end
      end
    end
  end.

(** the [for] loop over [range(number_iterations)] *)
Fixpoint ransac_loop (a : ndarray) (number_of_matrices : nat)
    (error_threshold concensus_threshold : float) (early_exit : bool)
    (counters : list nat) (st : ransac_state) (w : world) : flow * world :=
  match counters with
  | [] => (Next st, w)
  | iter_counter :: rest =>
      match ransac_iteration a number_of_matrices error_threshold
              concensus_threshold early_exit iter_counter st w with
      | (Next st', w') =>
          ransac_loop a number_of_matrices error_threshold concensus_threshold
            early_exit rest st' w'
      | stop => stop
      end
  end.

Definition initial_state : ransac_state :=
  {| highest_number_of_inliers := (-1)%Z;
     best_pointer_offset := None;
     best_pivot_location := None;
     best_residual_error := (-1) |}.

Definition pivot_calibration_with_ransac (tracking_matrices : pyobj)
    (number_iterations : Z) (error_threshold concensus_threshold : float)
    (early_exit : bool) (w : world) : result model * world :=
  if (number_iterations <? 1)%Z then (Raise (ValueError [msg_iterations]), w)
  else if error_threshold <? 0 then (Raise (ValueError [msg_error_threshold]), w)
  else if (concensus_threshold <? 0) || (1 <? concensus_threshold)
  then (Raise (ValueError [msg_concensus]), w)
  else
    match tracking_matrices with
    | PyOther => (Raise (TypeError [msg_not_array]), w)
    | PyArray a =>
      match shape_at a 0 with
      | Raise e => (Raise e, w)
      | Ok number_of_matrices =>
        match ransac_loop a number_of_matrices error_threshold
                concensus_threshold early_exit
                (seq 0 (Z.to_nat number_iterations)) initial_state w with
        | (Throw e, w') => (Raise e, w')
        | (Return m, w') => (Ok m, w')
        | (Next st, w') =>
            match best_pointer_offset st with
            | None => (Raise (ValueError [msg_no_model]), w')
            | Some _ =>
                (Ok (best_model st),
                 print (PrintSummary number_of_matrices
                          (highest_number_of_inliers st)
                          error_threshold concensus_threshold) w')
            end
        end
      end
    end.

(** ** Dispatcher *)

(** The configuration dictionary: a key that is absent is [None], and
    [configuration.get(key, default)] is [get]. *)
Record configuration : Type := mk_configuration {
  method : option string;
  number_iterations : option Z;
  error_threshold : option float;
  consensus_threshold : option float;
  early_exit : option bool
}.

Definition get {A : Type} (field : option A) (default : A) : A :=
  match field with
  | Some v => v
  | None => default
  end.

Definition pivot_calibration (tracking_matrices : pyobj)
    (config : option configuration) (w : world) : result model * world :=
  match structural_check tracking_matrices with
  | Raise e => (Raise e, w)
  | Ok a =>
      let use_algebraic_one_step :=
        match config with
        | Some c => String.eqb (get (method c) "aos"%string) "aos"%string
        | None => true
        end in
      let use_ransac :=
        match config with
        | Some c => negb (String.eqb (get (method c) "aos"%string) "aos"%string)
                    && String.eqb (get (method c) "aos"%string) "ransac"%string
        | None => false
        end in
      if use_algebraic_one_step
      then (x <- pivot_calibration_aos a ;; Ok (model_of x), w)
      else
        match config with
        | Some c =>
            if use_ransac then
              pivot_calibration_with_ransac tracking_matrices
                (get (number_iterations c) 10%Z)
                (get (error_threshold c) 4)
                (get (consensus_threshold c) 0.25)
                (get (early_exit c) false) w
            else
              (Raise (ValueError [msg_unknown_method;
                                  get (method c) "aos"%string]), w)
        | None => (Raise (ValueError [msg_unknown_method; "aos"%string]), w)
        end
  end.

(** ** Reading an execution of the robust estimator *)

(** lines 174 and 177, and again lines 201 to 203: the solver run on the
    poses that a list of indices selects *)
Definition fit (a : ndarray) (idx : list nat) : result calibration :=
  sample <- take_rows a idx ;;
  pivot_calibration_none (PyArray sample).

(** the generator before iteration [i], every earlier iteration having
    drawn once from a population of [n] *)
Fixpoint generator_at (g : generator) (n i : nat) : generator :=
  match i with
  | O => g
  | S i' => snd (sample_draw (generator_at g n i') n 3)
  end.

Definition indexes_at (g : generator) (n i : nat) : list nat :=
  fst (sample_draw (generator_at g n i) n 3).

(** the inliers of the candidate of iteration [i], if its fit succeeded *)
Definition inliers_at (a : ndarray) (n : nat) (error_threshold : float)
    (g : generator) (i : nat) : option (list nat) :=
  match fit a (indexes_at g n i) with
  | Ok (pointer_offset, pivot_location, _) =>
      Some (inliers a pointer_offset pivot_location error_threshold n)
  | Raise _ => None
  end.

(** does the candidate of iteration [i] exceed the consensus threshold? *)
Definition consensus_at (a : ndarray) (n : nat)
    (error_threshold concensus_threshold : float) (g : generator) (i : nat)
    : bool :=
  match inliers_at a n error_threshold g i with
  | Some inlier_indices =>
      concensus_threshold <? percentage (List.length inlier_indices) n
  | None => false
  end.

(** Among the first [k] iterations, iteration [i] is the best: its candidate
    exceeded the consensus threshold, and no candidate that did has more
    inliers, nor as many at a lower index. *)
Definition best_among (a : ndarray) (n : nat)
    (error_threshold concensus_threshold : float) (g : generator)
    (k i : nat) (inlier_indices : list nat) : Prop :=
  (i < k)%nat
  /\ inliers_at a n error_threshold g i = Some inlier_indices
  /\ consensus_at a n error_threshold concensus_threshold g i = true
  /\ forall j other, (j < k)%nat ->
       inliers_at a n error_threshold g j = Some other ->
       consensus_at a n error_threshold concensus_threshold g j = true ->
       (List.length other <= List.length inlier_indices)%nat
       /\ (List.length other = List.length inlier_indices -> (i <= j)%nat).

(** the world after one draw from a population of [n] *)
Definition after_draw (n : nat) (w : world) : world :=
  {| rng := snd (sample_draw (rng w) n 3); stdout := stdout w |}.

(** a model was recorded *)
Definition is_set (st : ransac_state) : Prop :=
  exists pointer_offset pivot_location,
    best_pointer_offset st = Some pointer_offset
    /\ best_pivot_location st = Some pivot_location.

(** the state after a candidate was accepted and refitted on its inliers *)
Definition accepted (inlier_indices : list nat) (c : calibration)
    : ransac_state :=
  let '(pointer_offset, pivot_location, residual_error) := c in
  {| highest_number_of_inliers := Z.of_nat (List.length inlier_indices);
     best_pointer_offset := Some pointer_offset;
     best_pivot_location := Some pivot_location;
     best_residual_error := residual_error |}.

End Calibration.



(** ** A singular value decomposition and a generator to run the model with *)

Local Open Scope float_scope.

(** One-sided Jacobi iteration (Hestenes): plane rotations make the columns
    of the matrix orthogonal; their norms are the singular values. *)
Module Jacobi.

Fixpoint upd {A : Type} (l : list A) (i : nat) (v : A) : list A :=
  match l, i with
  | [], _ => []
  | _ :: tl, O => v :: tl
  | x :: tl, S i' => x :: upd tl i' v
  end.

Definition axpby (a : float) (x : list float) (b : float) (y : list float)
    : list float :=
  map (fun p => a * fst p + b * snd p) (combine x y).

(** one rotation, after which columns [p] and [q] of [g] are orthogonal *)
Definition rotate (p q : nat) (gv : matrix * matrix) : matrix * matrix :=
  let (g, v) := gv in
  let gp := nth p g [] in
  let gq := nth q g [] in
  let alpha := dotp gp gp in
  let beta := dotp gq gq in
  let gamma := dotp gp gq in
  if PrimFloat.eqb gamma 0 then gv
  else
    let zeta := (beta - alpha) / (2 * gamma) in
    let t := (if zeta <? 0 then -1 else 1)
             / (PrimFloat.abs zeta + PrimFloat.sqrt (1 + zeta * zeta)) in
    let c := 1 / PrimFloat.sqrt (1 + t * t) in
    let s := c * t in
    let vp := nth p v [] in
    let vq := nth q v [] in
    (upd (upd g p (axpby c gp (- s) gq)) q (axpby s gp c gq),
     upd (upd v p (axpby c vp (- s) vq)) q (axpby s vp c vq)).

Definition pairs (n : nat) : list (nat * nat) :=
  flat_map (fun p => map (fun q => (p, q)) (seq (S p) (n - S p))) (seq 0 n).

Definition sweep (n : nat) (gv : matrix * matrix) : matrix * matrix :=
  fold_left (fun acc pq => rotate (fst pq) (snd pq) acc) (pairs n) gv.

Fixpoint sweeps (k n : nat) (gv : matrix * matrix) : matrix * matrix :=
  match k with
  | O => gv
  | S k' => sweeps k' n (sweep n gv)
  end.

Definition triple : Type := (float * list float * list float)%type.

Fixpoint insert_desc (x : triple) (l : list triple) : list triple :=
  match l with
  | [] => [x]
  | y :: tl =>
      if fst (fst y) <? fst (fst x) then x :: l else y :: insert_desc x tl
  end.

Definition sort_desc (l : list triple) : list triple :=
  fold_right insert_desc [] l.

(** the thin decomposition [(u, s, vh)] of a matrix with [n] columns *)
Definition svd_n (n : nat) (a : matrix) : matrix * list float * matrix :=
  let m := List.length a in
  let '(g, v) := sweeps 12 n (transpose n a, eye n) in
  let ts :=
    map (fun gv =>
           let sigma := PrimFloat.sqrt (dotp (fst gv) (fst gv)) in
           (sigma, map (fun x => x / sigma) (fst gv), snd gv))
        (combine g v) in
  let top := firstn (Nat.min m n) (sort_desc ts) in
  (transpose m (map (fun t => snd (fst t)) top),
   map (fun t => fst (fst t)) top,
   map (fun t => snd t) top).

Definition svd (a : matrix) : matrix * list float * matrix :=
  svd_n (List.length (hd [] a)) a.

End Jacobi.

(** A generator that walks round the population: its state is a counter. *)
Module Cyclic.

Definition generator : Type := nat.

Definition sample_draw (g : generator) (n k : nat) : list nat * generator :=
  (map (fun i => Nat.modulo (g + i) n) (seq 0 k), S g).

End Cyclic.

(** *** Pose arrays to run the model on *)

Definition pose_of (r : matrix) (t : list float) : list float :=
  concat (map (fun p => fst p ++ [snd p]) (combine r t)) ++ [0; 0; 0; 1].

Definition rot_id : matrix := [[1; 0; 0]; [0; 1; 0]; [0; 0; 1]].
Definition rot_z : matrix := [[0; -1; 0]; [1; 0; 0]; [0; 0; 1]].
Definition rot_x : matrix := [[1; 0; 0]; [0; 0; -1]; [0; 1; 0]].
Definition rot_y : matrix := [[0; 0; 1]; [0; 1; 0]; [-1; 0; 0]].

(** Four poses of a pointer with offset (1, 2, 3) pivoting about
    (10, 20, 30): the translation of each is the pivot minus the rotated
    offset. *)
Definition poses_exact : ndarray :=
  {| shape := [4; 4; 4]%nat;
     data := pose_of rot_id [9; 18; 27] ++ pose_of rot_z [12; 19; 27]
             ++ pose_of rot_x [9; 23; 28] ++ pose_of rot_y [7; 18; 31] |}.

(** Two poses with one and the same rotation. *)
Definition poses_same_rotation : ndarray :=
  {| shape := [2; 4; 4]%nat;
     data := pose_of rot_id [9; 18; 27] ++ pose_of rot_id [5; 6; 7] |}.

(** Two poses whose rotation blocks differ by a factor of 1 + 2^-10 only. *)
Definition poses_nearly_same : ndarray :=
  {| shape := [2; 4; 4]%nat;
     data := pose_of rot_id [9; 18; 27]
             ++ pose_of (scale rot_id 1.0009765625) [5; 6; 7] |}.

(** The four poses above, a fifth of the same pointer, and an outlier. *)
Definition rot_zz : matrix := [[-1; 0; 0]; [0; -1; 0]; [0; 0; 1]].

Definition poses_outlier : ndarray :=
  {| shape := [6; 4; 4]%nat;
     data := pose_of rot_id [9; 18; 27] ++ pose_of rot_z [12; 19; 27]
             ++ pose_of rot_x [9; 23; 28] ++ pose_of rot_y [7; 18; 31]
             ++ pose_of rot_zz [11; 22; 27] ++ pose_of rot_x [0; 0; 0] |}.

(** Three poses, the third of which is off by three units along [x]. *)
Definition poses_three : ndarray :=
  {| shape := [3; 4; 4]%nat;
     data := pose_of rot_id [9; 18; 27] ++ pose_of rot_z [12; 19; 27]
             ++ pose_of rot_x [12; 23; 28] |}.

(** An array of shape (3, 3, 4): three rows per matrix. *)
Definition poses_three_rows : ndarray :=
  {| shape := [3; 3; 4]%nat; data := repeat 0 36 |}.

(** Six poses of the pointer above, the first three with one rotation. *)
Definition poses_repeat : ndarray :=
  {| shape := [6; 4; 4]%nat;
     data := pose_of rot_id [9; 18; 27] ++ pose_of rot_id [9; 18; 27]
             ++ pose_of rot_id [9; 18; 27] ++ pose_of rot_z [12; 19; 27]
             ++ pose_of rot_x [9; 23; 28] ++ pose_of rot_y [7; 18; 31] |}.

Definition w0 : world Cyclic.generator := {| rng := 0%nat; stdout := [] |}.

Local Close Scope float_scope.

(** ** Further notions used below *)

Local Open Scope float_scope.

(** Two pose arrays agree on the first three rows of each of their first
    [n] poses. *)
Definition agree_on_rows (a b : ndarray) (n : nat) : Prop :=
  forall i j k, (i < n)%nat -> (j < 3)%nat -> (k < 4)%nat ->
    entry a i j k = entry b i j k.

(** did the sample fit of iteration [i] fail? *)
Definition sample_failed
    (svd : matrix -> matrix * list float * matrix)
    (generator : Type)
    (sample_draw : generator -> nat -> nat -> list nat * generator)
    (a : ndarray) (n : nat) (error_threshold : float) (g : generator)
    (i : nat) : bool :=
  match inliers_at svd generator sample_draw a n error_threshold g i with
  | Some _ => false
  | None => true
  end.

(** One pose only. *)
Definition poses_single : ndarray :=
  {| shape := [1; 4; 4]%nat; data := pose_of rot_z [12; 19; 27] |}.

(** The poses of [poses_outlier] with other numbers in the fourth row. *)
Definition poses_outlier_bottom : ndarray :=
  {| shape := [6; 4; 4]%nat;
     data := flat_map (fun i => firstn 12 (skipn (i * 16) (data poses_outlier))
                                ++ [5; 6; 7; 8])
                      (seq 0 6) |}.

Local Close Scope float_scope.
Local Close Scope float_scope.

(** ** Basic facts about lists and arrays *)

Lemma set_item_app (d : list float) (x v : float) (tl : list float) :
  set_item (d ++ x :: tl) (length d) v = d ++ v :: tl.
Proof.
  induction d as [|y d IH]; simpl; [reflexivity | now rewrite IH].
Qed.

Lemma replace_small_values_from (thr rep : float) (l2 d : list float) (r : nat) :
  fold_left
    (fun (st : nat * list float) (ix : nat * float) =>
       let (rank, the_list) := st in
       let (index, item) := ix in
       if (item <? thr)%float
       then (rank, set_item the_list index rep)
       else (S rank, the_list))
    (combine (seq (length d) (length l2)) l2) (r, d ++ l2)
  = (r + length (filter (fun s => negb (s <? thr)%float) l2),
     d ++ map (fun s => if (s <? thr)%float then rep else s) l2).
Proof.
  revert d r. induction l2 as [|x l2 IH]; intros d r; simpl.
  - now rewrite Nat.add_0_r.
  - destruct (x <? thr)%float eqn:E; simpl.
    + rewrite set_item_app.
      specialize (IH (d ++ [rep]) r).
      rewrite length_app, <- app_assoc in IH. simpl in IH.
      rewrite Nat.add_1_r in IH. rewrite IH.
      now rewrite <- app_assoc.
    + specialize (IH (d ++ [x]) (S r)).
      rewrite length_app, <- app_assoc in IH. simpl in IH.
      rewrite Nat.add_1_r in IH. rewrite IH.
      rewrite <- app_assoc. simpl. f_equal. lia.
Qed.

(** The rank estimator counts the values that are not below the threshold
    and replaces the others. *)
Lemma replace_small_values_spec (l : list float) (thr rep : float) :
  replace_small_values l thr rep
  = (length (filter (fun s => negb (s <? thr)%float) l),
     map (fun s => if (s <? thr)%float then rep else s) l).
Proof.
  unfold replace_small_values, enumerate.
  exact (replace_small_values_from thr rep l [] 0).
Qed.

Lemma length_flat_map_const {A B : Type} (f : A -> list B) (c : nat) (l : list A) :
  (forall x, In x l -> length (f x) = c) ->
  length (flat_map f l) = length l * c.
Proof.
  induction l as [|x l IH]; intros H; simpl; [reflexivity|].
  rewrite length_app, H by (now left).
  rewrite IH by (intros y Hy; apply H; now right). reflexivity.
Qed.

Lemma flat_map_ext_in {A B : Type} (f g : A -> list B) (l : list A) :
  (forall x, In x l -> f x = g x) -> flat_map f l = flat_map g l.
Proof.
  intros H. rewrite !flat_map_concat_map. f_equal. now apply map_ext_in.
Qed.

Lemma firstn_1_skipn (l : list float) (k : nat) :
  k < length l -> firstn 1 (skipn k l) = [nth k l 0%float].
Proof.
  revert k. induction l as [|x l IH]; intros k Hk; simpl in Hk; [lia|].
  destruct k as [|k]; simpl; [reflexivity|].
  apply IH. lia.
Qed.

Lemma cell_entry (a : ndarray) (n i j k : nat) :
  length (data a) = n * 16 -> i < n -> j < 4 -> k < 4 ->
  cell a 4 4 1 i j k = [entry a i j k].
Proof.
  intros Hl Hi Hj Hk. unfold cell, entry.
  rewrite Nat.mul_1_r. apply firstn_1_skipn. lia.
Qed.

Lemma wf_length (a : ndarray) (n : nat) :
  shape a = [n; 4; 4] -> wf a -> length (data a) = n * 16.
Proof.
  unfold wf. intros -> ->. simpl. lia.
Qed.

(** Cutting the concatenation of rows of width [c] gives the rows back. *)
Lemma chunks_concat (c : nat) (m : matrix) :
  Forall (fun row => length row = c) m ->
  chunks (length m) c (concat m) = m.
Proof.
  induction 1 as [|row m Hrow _ IH]; simpl; [reflexivity|].
  rewrite firstn_app, Hrow, Nat.sub_diag, firstn_all2 by lia.
  simpl. rewrite app_nil_r.
  rewrite skipn_app, Hrow, Nat.sub_diag, skipn_all2 by lia.
  simpl. now rewrite IH.
Qed.

Lemma Forall_flat_map {A B : Type} (P : B -> Prop) (f : A -> list B) (l : list A) :
  (forall x, In x l -> Forall P (f x)) -> Forall P (flat_map f l).
Proof.
  induction l as [|x l IH]; intros H; simpl; [constructor|].
  apply Forall_app. split; [apply H; now left|].
  apply IH. intros y Hy. apply H. now right.
Qed.

Lemma concat_flat_map {A B : Type} (f : A -> list (list B)) (l : list A) :
  concat (flat_map f l) = flat_map (fun x => concat (f x)) l.
Proof.
  induction l as [|x l IH]; simpl; [reflexivity|].
  now rewrite concat_app, IH.
Qed.

Lemma concat_repeat_flat_map {B : Type} (m : list B) (n : nat) :
  concat (repeat m n) = flat_map (fun _ => m) (seq 0 n).
Proof.
  generalize 0. induction n as [|n IH]; intros s; simpl; [reflexivity|].
  now rewrite (IH (S s)).
Qed.

Lemma combine_append {B C : Type} (l1 l2 : list B) (m1 m2 : list C) :
  length l1 = length m1 ->
  combine (l1 ++ l2) (m1 ++ m2) = combine l1 m1 ++ combine l2 m2.
Proof.
  revert m1. induction l1 as [|x l1 IH]; intros [|y m1] H; simpl in *;
    try discriminate; [reflexivity|].
  f_equal. apply IH. lia.
Qed.

Lemma combine_flat_map {A B C : Type} (f : A -> list B) (g : A -> list C)
    (l : list A) :
  (forall x, In x l -> length (f x) = length (g x)) ->
  combine (flat_map f l) (flat_map g l)
  = flat_map (fun x => combine (f x) (g x)) l.
Proof.
  induction l as [|x l IH]; intros H; simpl; [reflexivity|].
  rewrite combine_append by (apply H; now left).
  rewrite IH by (intros y Hy; apply H; now right). reflexivity.
Qed.

Lemma map_flat_map {A B C : Type} (f : B -> C) (g : A -> list B) (l : list A) :
  map f (flat_map g l) = flat_map (fun x => map f (g x)) l.
Proof.
  induction l as [|x l IH]; simpl; [reflexivity|].
  now rewrite map_app, IH.
Qed.

Lemma slice_rotations_eq (a : ndarray) (n : nat) :
  shape a = [n; 4; 4] -> wf a ->
  slice_rotations a = Ok (concat (flat_map (rotation a) (seq 0 n))).
Proof.
  intros Hs Hw. pose proof (wf_length a n Hs Hw) as Hl.
  unfold slice_rotations. rewrite Hs. f_equal.
  rewrite concat_flat_map. apply flat_map_ext_in.
  intros i Hi. apply in_seq in Hi. simpl.
  rewrite !(cell_entry a n) by lia. reflexivity.
Qed.

Lemma slice_translations_eq (a : ndarray) (n : nat) :
  shape a = [n; 4; 4] -> wf a ->
  slice_translations a = Ok (concat (flat_map (translation a) (seq 0 n))).
Proof.
  intros Hs Hw. pose proof (wf_length a n Hs Hw) as Hl.
  unfold slice_translations. rewrite Hs. simpl. f_equal.
  rewrite concat_flat_map. apply flat_map_ext_in.
  intros i Hi. apply in_seq in Hi. simpl.
  rewrite !(cell_entry a n) by lia. reflexivity.
Qed.

Lemma reshape2_concat (r c : nat) (m : matrix) :
  length m = r -> Forall (fun row => length row = c) m ->
  reshape2 r c (concat m) = Ok m.
Proof.
  intros Hr Hc. unfold reshape2.
  assert (length (concat m) = r * c) as ->.
  { subst r. clear -Hc. induction Hc as [|row m Hrow _ IH]; simpl; [reflexivity|].
    rewrite length_app, IH, Hrow. reflexivity. }
  rewrite Nat.eqb_refl. subst r. now rewrite chunks_concat.
Qed.

Lemma aos_system_eq (a : ndarray) (n : nat) :
  shape a = [n; 4; 4] -> wf a ->
  aos_system a = Ok (stacked_a a n, stacked_b a n).
Proof.
  intros Hs Hw. unfold aos_system, shape_at. rewrite Hs. simpl nth_error. cbv beta iota delta [bind].
  rewrite (slice_rotations_eq a n Hs Hw).
  rewrite reshape2_concat.
  2:{ rewrite (length_flat_map_const _ 3), length_seq; [lia|reflexivity]. }
  2:{ apply Forall_flat_map. intros i _. repeat constructor. }
  rewrite (slice_translations_eq a n Hs Hw).
  rewrite concat_flat_map, map_flat_map.
  replace (flat_map (fun x => map (fun v => (v * -1)%float) (concat (translation a x))) (seq 0 n))
    with (concat (stacked_b a n)).
  2:{ unfold stacked_b. rewrite concat_flat_map. reflexivity. }
  rewrite reshape2_concat.
  2:{ unfold stacked_b. rewrite (length_flat_map_const _ 3), length_seq; [lia|reflexivity]. }
  2:{ apply Forall_flat_map. intros i _. repeat constructor. }
  f_equal. f_equal.
  unfold concatenate1, stacked_a. rewrite concat_repeat_flat_map.
  rewrite combine_flat_map by reflexivity.
  rewrite map_flat_map. reflexivity.
Qed.

Section Solver.

Variable svd : matrix -> matrix * list float * matrix.

Lemma aos_rank_eq (a_values : matrix) :
  aos_rank svd a_values
  = (numerical_rank svd a_values,
     map (fun s => if (s <? 0.01)%float then 0%float else s)
         (singular_values svd a_values)).
Proof.
  unfold aos_rank, numerical_rank, singular_values.
  destruct (svd a_values) as [[u s] v]. simpl.
  apply replace_small_values_spec.
Qed.

Lemma pivot_calibration_aos_eq (a : ndarray) (n : nat) :
  shape a = [n; 4; 4] -> wf a ->
  pivot_calibration_aos svd a =
  if numerical_rank svd (stacked_a a n) <? 6
  then Raise (ValueError [msg_rank])
  else
    let x_values := aos_solution svd (stacked_a a n) (stacked_b a n) in
    Ok (firstn 3 x_values, firstn 3 (skipn 3 x_values),
        aos_residual n (stacked_a a n) x_values (stacked_b a n)).
Proof.
  intros Hs Hw. unfold pivot_calibration_aos.
  rewrite (aos_system_eq a n Hs Hw).
  unfold shape_at. rewrite Hs. simpl.
  rewrite aos_rank_eq. reflexivity.
Qed.

Lemma length_stacked_a (a : ndarray) (n : nat) :
  length (stacked_a a n) = 3 * n
  /\ Forall (fun row => length row = 6) (stacked_a a n).
Proof.
  split.
  - unfold stacked_a. rewrite (length_flat_map_const _ 3), length_seq; [lia|].
    reflexivity.
  - apply Forall_flat_map. intros i _. repeat constructor.
Qed.

(** C1. For every pose array of shape (N, 4, 4), the stacked system has 3N
    rows of 6 entries; the rank estimator returns the number of singular
    values that are not below 0.01 and leaves 0.0 in place of the others;
    [pivot_calibration_aos] raises the rank error exactly when that number
    is below 6, and whenever it returns a result the number is at least 6. *)
Theorem aos_degenerate_iff_rank_deficient (a : ndarray) (n : nat) :
  shape a = [n; 4; 4] -> wf a ->
  aos_system a = Ok (stacked_a a n, stacked_b a n)
  /\ length (stacked_a a n) = 3 * n
  /\ Forall (fun row => length row = 6) (stacked_a a n)
  /\ aos_rank svd (stacked_a a n)
     = (length (filter (fun s => negb (s <? 0.01)%float)
                       (singular_values svd (stacked_a a n))),
        map (fun s => if (s <? 0.01)%float then 0%float else s)
            (singular_values svd (stacked_a a n)))
  /\ (pivot_calibration_aos svd a = Raise (ValueError [msg_rank])
      <-> numerical_rank svd (stacked_a a n) < 6)
  /\ (forall c, pivot_calibration_aos svd a = Ok c ->
                6 <= numerical_rank svd (stacked_a a n)).
Proof.
  intros Hs Hw.
  split; [now apply aos_system_eq|].
  destruct (length_stacked_a a n) as [Hl Hr].
  split; [exact Hl|]. split; [exact Hr|].
  split; [apply aos_rank_eq|].
  rewrite (pivot_calibration_aos_eq a n Hs Hw).
  destruct (numerical_rank svd (stacked_a a n) <? 6) eqn:E.
  - apply Nat.ltb_lt in E. split; [tauto|]. intros c H. discriminate.
  - apply Nat.ltb_ge in E. split.
    + split; [discriminate | lia].
    + intros _ _. exact E.
Qed.

Lemma skipn_length_app {B : Type} (l1 l2 : list B) (k : nat) :
  skipn (length l1 + k) (l1 ++ l2) = skipn k l2.
Proof.
  induction l1 as [|x l1 IH]; simpl; [reflexivity | exact IH].
Qed.

Lemma block_of_flat_map {A B : Type} (f : A -> list B) (c : nat) (d : A)
    (l : list A) (i : nat) :
  (forall x, length (f x) = c) -> i < length l ->
  firstn c (skipn (c * i) (flat_map f l)) = f (nth i l d).
Proof.
  intros Hc. revert i. induction l as [|x l IH]; intros i Hi; simpl in *; [lia|].
  destruct i as [|i].
  - rewrite Nat.mul_0_r. simpl.
    rewrite firstn_app, Hc, Nat.sub_diag, firstn_all2 by (rewrite Hc; lia).
    simpl. now rewrite app_nil_r.
  - replace (c * S i) with (length (f x) + c * i) by (rewrite Hc; lia).
    rewrite skipn_length_app. apply IH. lia.
Qed.

Lemma stacked_a_block (a : ndarray) (n i : nat) :
  i < n ->
  firstn 3 (skipn (3 * i) (stacked_a a n))
  = concatenate1 (rotation a i) neg_identity.
Proof.
  intros Hi. unfold stacked_a.
  rewrite (block_of_flat_map _ 3 0) by (reflexivity || now rewrite length_seq).
  now rewrite seq_nth.
Qed.

Lemma stacked_b_block (a : ndarray) (n i : nat) :
  i < n ->
  firstn 3 (skipn (3 * i) (stacked_b a n))
  = scale (translation a i) (-1)%float.
Proof.
  intros Hi. unfold stacked_b.
  rewrite (block_of_flat_map _ 3 0) by (reflexivity || now rewrite length_seq).
  now rewrite seq_nth.
Qed.

Lemma length_aos_solution (a_values b_values : matrix) :
  length (aos_solution svd a_values b_values) = 6.
Proof.
  unfold aos_solution. destruct (svd a_values) as [[u s] v].
  unfold dot at 1. rewrite length_map. unfold transpose.
  now rewrite length_map, length_seq.
Qed.

(** C3. For every pose array of shape (N, 4, 4) on which
    [pivot_calibration_aos] succeeds: rows 3i to 3i+2 of the system matrix
    are the rotation block of pose i next to [-Identity], and the same rows
    of the right-hand side are -1 times the translation of pose i; the
    solution has six components, the pointer offset is its first three, the
    pivot location its last three, and the residual is the square root of
    the sum of the squared components of [A x - b] divided by 3N. *)
Theorem aos_system_and_result (a : ndarray) (n : nat)
    (pointer_offset pivot_location : matrix) (residual_error : float) :
  shape a = [n; 4; 4] -> wf a ->
  pivot_calibration_aos svd a
    = Ok (pointer_offset, pivot_location, residual_error) ->
  exists a_values b_values,
    aos_system a = Ok (a_values, b_values)
    /\ (forall i, i < n ->
          firstn 3 (skipn (3 * i) a_values)
            = concatenate1 (rotation a i) neg_identity
          /\ firstn 3 (skipn (3 * i) b_values)
            = scale (translation a i) (-1)%float)
    /\ neg_identity = [[-1; -0; -0]; [-0; -1; -0]; [-0; -0; -1]]%float
    /\ let x_values := aos_solution svd a_values b_values in
       let residual_matrix :=
         map2 PrimFloat.sub (dot 1 a_values x_values) b_values in
       length x_values = 6
       /\ pointer_offset = firstn 3 x_values
       /\ pivot_location = skipn 3 x_values
       /\ residual_error
          = PrimFloat.sqrt
              (np_sum (map2 PrimFloat.mul residual_matrix residual_matrix)
               / float_of_nat (3 * n))%float.
Proof.
  intros Hs Hw H.
  exists (stacked_a a n), (stacked_b a n).
  split; [now apply aos_system_eq|].
  split; [intros i Hi; split;
          [now apply stacked_a_block | now apply stacked_b_block]|].
  split; [reflexivity|].
  rewrite (pivot_calibration_aos_eq a n Hs Hw) in H.
  destruct (numerical_rank svd (stacked_a a n) <? 6); [discriminate|].
  pose proof (length_aos_solution (stacked_a a n) (stacked_b a n)) as Hx.
  cbv zeta in H.
  rewrite (firstn_all2 (n := 3) (skipn 3 _)) in H
    by (rewrite length_skipn; lia).
  injection H as H1 H2 H3.
  cbv zeta. split; [exact Hx|]. split; [now symmetry|].
  split; [now symmetry|].
  rewrite <- H3. unfold aos_residual. now rewrite (Nat.mul_comm n 3).
Qed.

Lemma filter_all {A : Type} (f : A -> bool) (l : list A) :
  length l <= length (filter f l) -> Forall (fun x => f x = true) l.
Proof.
  induction l as [|x l IH]; intros H; simpl in *; [constructor|].
  pose proof (filter_length_le f l) as Hle.
  destruct (f x) eqn:E; simpl in H.
  - constructor; [exact E | apply IH; lia].
  - lia.
Qed.

Lemma aos_reciprocals_eq (a_values : matrix) :
  aos_reciprocals svd a_values
  = map (fun s => (1 / s)%float) (singular_values svd a_values).
Proof.
  unfold aos_reciprocals, singular_values.
  now destruct (svd a_values) as [[u s] v].
Qed.

Lemma aos_solution_spec_eq (a_values b_values : matrix) :
  Forall (fun s => (s <? 0.01)%float = false) (singular_values svd a_values) ->
  aos_solution svd a_values b_values = aos_solution_spec svd a_values b_values.
Proof.
  unfold aos_solution, aos_solution_spec, aos_reciprocals, singular_values.
  destruct (svd a_values) as [[u s] v]. cbn [fst snd]. intros Hall.
  replace (map (fun s0 => if (s0 <? 0.01)%float then 0%float else (1 / s0)%float) s)
    with (map (fun s0 => (1 / s0)%float) s); [reflexivity|].
  apply map_ext_in. intros x Hx.
  rewrite Forall_forall in Hall. now rewrite (Hall x Hx).
Qed.

(** C2, as the code has it. The reciprocals that enter the solution are
    those of all the singular values as the decomposition returned them,
    taken before the rank estimator zeroes any.  When the decomposition
    returns at most six singular values and [pivot_calibration_aos] returns
    a result, none of them is below 0.01, the rank estimator leaves them
    unchanged, and the solution is the one in which zeroed singular values
    would contribute zero; the pointer offset and pivot location are its
    two halves. *)
Theorem aos_returned_solution_has_no_zeroed_value (a : ndarray) (n : nat)
    (c : calibration) :
  shape a = [n; 4; 4] -> wf a ->
  length (singular_values svd (stacked_a a n)) <= 6 ->
  pivot_calibration_aos svd a = Ok c ->
  aos_reciprocals svd (stacked_a a n)
    = map (fun s => (1 / s)%float) (singular_values svd (stacked_a a n))
  /\ Forall (fun s => (s <? 0.01)%float = false)
            (singular_values svd (stacked_a a n))
  /\ snd (aos_rank svd (stacked_a a n)) = singular_values svd (stacked_a a n)
  /\ aos_solution svd (stacked_a a n) (stacked_b a n)
     = aos_solution_spec svd (stacked_a a n) (stacked_b a n)
  /\ fst (fst c) = firstn 3 (aos_solution_spec svd (stacked_a a n) (stacked_b a n))
  /\ snd (fst c) = skipn 3 (aos_solution_spec svd (stacked_a a n) (stacked_b a n)).
Proof.
  intros Hs Hw Hk H.
  split; [apply aos_reciprocals_eq|].
  rewrite (pivot_calibration_aos_eq a n Hs Hw) in H.
  destruct (numerical_rank svd (stacked_a a n) <? 6) eqn:E; [discriminate|].
  apply Nat.ltb_ge in E. unfold numerical_rank in E.
  assert (Forall (fun s => (s <? 0.01)%float = false)
                 (singular_values svd (stacked_a a n))) as Hall.
  { eapply Forall_impl; [|apply filter_all; etransitivity; [exact Hk | exact E]].
    intros s Hsv. simpl in Hsv. now destruct (s <? 0.01)%float. }
  split; [exact Hall|].
  pose proof (aos_solution_spec_eq (stacked_a a n) (stacked_b a n) Hall) as Heq.
  split.
  { rewrite aos_rank_eq. cbn [snd].
    rewrite <- (map_id (singular_values svd (stacked_a a n))) at 2.
    apply map_ext_in. intros x Hx.
    rewrite Forall_forall in Hall. now rewrite (Hall x Hx). }
  split; [exact Heq|].
  cbv zeta in H.
  rewrite (firstn_all2 (n := 3) (skipn 3 _)) in H
    by (rewrite length_skipn, length_aos_solution; lia).
  injection H as <-. cbn [fst snd]. rewrite <- Heq. split; reflexivity.
Qed.

End Solver.

Section Estimator.

Variable svd : matrix -> matrix * list float * matrix.
Variable generator : Type.
Variable sample_draw : generator -> nat -> nat -> list nat * generator.

Lemma structural_check_ok (a : ndarray) (n : nat) :
  shape a = [n; 4; 4] -> structural_check (PyArray a) = Ok a.
Proof.
  intros Hs. unfold structural_check, shape_at. now rewrite Hs.
Qed.

Lemma pivot_calibration_none_eq (a : ndarray) (n : nat) :
  shape a = [n; 4; 4] ->
  pivot_calibration_none svd (PyArray a) = pivot_calibration_aos svd a.
Proof.
  intros Hs. unfold pivot_calibration_none.
  now rewrite (structural_check_ok a n Hs).
Qed.

Lemma firstn_skipn_length (l : list float) (k c : nat) :
  k + c <= length l -> length (firstn c (skipn k l)) = c.
Proof.
  intros H. rewrite length_firstn, length_skipn. lia.
Qed.

Lemma take_rows_ok (a : ndarray) (n : nat) (idx : list nat) :
  shape a = [n; 4; 4] -> wf a -> Forall (fun i => i < n) idx ->
  exists sample, take_rows a idx = Ok sample
                 /\ shape sample = [length idx; 4; 4] /\ wf sample.
Proof.
  intros Hs Hw Hidx. pose proof (wf_length a n Hs Hw) as Hl.
  unfold take_rows. rewrite Hs.
  assert (forallb (fun i => i <? n) idx = true) as ->.
  { apply forallb_forall. rewrite Forall_forall in Hidx.
    intros i Hi. apply Nat.ltb_lt. now apply Hidx. }
  eexists. split; [reflexivity|]. split; [reflexivity|].
  unfold wf. cbn [shape data size fold_right].
  rewrite (length_flat_map_const _ 16); [lia|].
  intros i Hi. rewrite Forall_forall in Hidx. specialize (Hidx i Hi).
  apply firstn_skipn_length. simpl. lia.
Qed.

(** On poses of shape (N, 4, 4) the solver returns or raises the rank
    error; nothing else. *)
Lemma fit_cases (a : ndarray) (n : nat) (idx : list nat) :
  shape a = [n; 4; 4] -> wf a -> Forall (fun i => i < n) idx ->
  (exists c, fit svd a idx = Ok c)
  \/ fit svd a idx = Raise (ValueError [msg_rank]).
Proof.
  intros Hs Hw Hidx.
  destruct (take_rows_ok a n idx Hs Hw Hidx) as (sample & Ht & Hss & Hws).
  unfold fit. rewrite Ht. cbn [bind].
  rewrite (pivot_calibration_none_eq sample _ Hss).
  rewrite (pivot_calibration_aos_eq svd sample _ Hss Hws).
  destruct (numerical_rank _ _ <? 6); [now right | left; eauto].
Qed.

Lemma pose_matmul_eq (a : ndarray) (n i : nat) (offset : matrix) :
  shape a = [n; 4; 4] -> wf a -> i < n ->
  pose_matmul a i offset = Ok (dot 1 (pose a i) offset).
Proof.
  intros Hs Hw Hi. pose proof (wf_length a n Hs Hw) as Hl.
  unfold pose_matmul. rewrite Hs. cbn [Nat.eqb]. do 2 f_equal.
  unfold pose. apply map_ext_in. intros j Hj. apply in_seq in Hj.
  cbn [seq map concat]. rewrite !(cell_entry a n) by lia. reflexivity.
Qed.

Lemma score_eq (a : ndarray) (n : nat) (pointer_offset pivot_location : matrix)
    (error_threshold : float) (counters : list nat) (k : nat) (acc : list nat) :
  shape a = [n; 4; 4] -> wf a -> Forall (fun i => i < n) counters ->
  score a pointer_offset pivot_location error_threshold counters k acc
  = Ok (k + length (filter (fun i => (distance a pointer_offset pivot_location i
                                      <? error_threshold)%float) counters),
        acc ++ filter (fun i => (distance a pointer_offset pivot_location i
                                 <? error_threshold)%float) counters).
Proof.
  intros Hs Hw Hc. revert k acc.
  induction Hc as [|i counters Hi _ IH]; intros k acc; cbn [score filter].
  - now rewrite Nat.add_0_r, app_nil_r.
  - rewrite (pose_matmul_eq a n i _ Hs Hw Hi). cbn [bind].
    fold (distance a pointer_offset pivot_location i).
    destruct (distance a pointer_offset pivot_location i <? error_threshold)%float.
    + rewrite IH, <- app_assoc. cbn [length app]. do 2 f_equal. lia.
    + apply IH.
Qed.

Lemma score_full (a : ndarray) (n : nat) (pointer_offset pivot_location : matrix)
    (error_threshold : float) :
  shape a = [n; 4; 4] -> wf a ->
  score a pointer_offset pivot_location error_threshold (seq 0 n) 0 []
  = Ok (length (inliers a pointer_offset pivot_location error_threshold n),
        inliers a pointer_offset pivot_location error_threshold n).
Proof.
  intros Hs Hw. rewrite (score_eq a n) by
    (auto; apply Forall_forall; intros i Hi; apply in_seq in Hi; lia).
  reflexivity.
Qed.

Lemma fit_unfold (a : ndarray) (idx : list nat) :
  fit svd a idx
  = match take_rows a idx with
    | Ok sample => pivot_calibration_none svd (PyArray sample)
    | Raise e => Raise e
    end.
Proof. reflexivity. Qed.

Lemma random_sample_ok (n : nat) (w : world generator) :
  3 <= n ->
  random_sample generator sample_draw n 3 w
  = (Ok (fst (sample_draw (rng generator w) n 3)),
     {| rng := snd (sample_draw (rng generator w) n 3);
        stdout := stdout generator w |}).
Proof.
  intros Hn. unfold random_sample.
  destruct (Nat.ltb_spec n 3) as [H|_]; [lia|].
  now destruct (sample_draw (rng generator w) n 3).
Qed.

(** One pass through the loop body, on poses of shape (N, 4, 4). *)
Lemma ransac_iteration_eq (a : ndarray) (n : nat) (et ct : float) (ee : bool)
    (i : nat) (st : ransac_state) (w : world generator) :
  shape a = [n; 4; 4] -> wf a -> 3 <= n ->
  Forall (fun k => k < n) (fst (sample_draw (rng generator w) n 3)) ->
  ransac_iteration svd generator sample_draw a n et ct ee i st w
  = let idx := fst (sample_draw (rng generator w) n 3) in
    let w' := {| rng := snd (sample_draw (rng generator w) n 3);
                 stdout := stdout generator w |} in
    match fit svd a idx with
    | Raise _ => (Next st, print generator (PrintIterationFailed i) w')
    | Ok (pointer_offset, pivot_location, _) =>
        let inl := inliers a pointer_offset pivot_location et n in
        if (ct <? percentage (length inl) n)%float
           && (highest_number_of_inliers st <? Z.of_nat (length inl))%Z
        then match fit svd a inl with
             | Ok c => (if ee then Return (best_model (accepted inl c))
                        else Next (accepted inl c), w')
             | Raise e => (Throw e, w')
             end
        else (if (ct <? percentage (length inl) n)%float && ee
              then Return (best_model st) else Next st, w')
    end.
Proof.
  intros Hs Hw Hn Hidx. unfold ransac_iteration.
  rewrite (random_sample_ok n w Hn). cbv zeta.
  destruct (take_rows_ok a n _ Hs Hw Hidx) as (sample & Ht & _).
  destruct (fit_cases a n _ Hs Hw Hidx) as [[c Hc] | Hc]; rewrite Hc;
    rewrite fit_unfold, Ht in Hc; rewrite Ht, Hc.
  2:{ reflexivity. }
  destruct c as [[po pl] re].
  rewrite (score_full a n po pl et Hs Hw).
  set (inl := inliers a po pl et n).
  destruct ((ct <? percentage (length inl) n)%float
            && (highest_number_of_inliers st <? Z.of_nat (length inl))%Z) eqn:E.
  - apply andb_prop in E. destruct E as [E1 E2]. rewrite E1. cbn [andb].
    rewrite fit_unfold.
    destruct (take_rows a inl) as [inlier_matrices|e]; cbn [bind]; [|reflexivity].
    destruct (pivot_calibration_none svd (PyArray inlier_matrices))
      as [[[bpo bpl] bre]|e]; cbn [bind]; [|reflexivity].
    now destruct ee.
  - now destruct ((ct <? percentage (length inl) n)%float && ee).
Qed.

Lemma take_rows_valid (a : ndarray) (n : nat) (rest : list nat)
    (idx : list nat) (sample : ndarray) :
  shape a = n :: rest -> take_rows a idx = Ok sample ->
  Forall (fun k => k < n) idx.
Proof.
  intros Hs. unfold take_rows. rewrite Hs.
  destruct (forallb (fun i => i <? n) idx) eqn:E; [|discriminate].
  intros _. apply Forall_forall. intros k Hk.
  rewrite forallb_forall in E. apply Nat.ltb_lt. now apply E.
Qed.

Lemma In_inliers (a : ndarray) (po pl : matrix) (et : float) (n k : nat) :
  In k (inliers a po pl et n)
  <-> k < n /\ (distance a po pl k <? et)%float = true.
Proof.
  unfold inliers. rewrite filter_In, in_seq. intuition lia.
Qed.

(** C6. In an iteration whose sample fit succeeded, on poses of shape
    (N, 4, 4): the inner loop returns exactly the poses, out of all N, whose
    distance to the candidate pivot location is strictly below
    [error_threshold], with their number.  The inlier fraction is the
    number of inliers divided by N, both converted to floats.  If the
    fraction exceeds [concensus_threshold] and the number of inliers exceeds
    the highest seen so far, the solver is run again on exactly the inliers:
    its result becomes the best model and the number of inliers the highest
    (or its exception leaves the function); otherwise the state is
    unchanged, so a candidate with no more inliers than the best never
    replaces it.  With [early_exit] and the fraction above the threshold the
    iteration returns the best model. *)
Theorem ransac_iteration_scoring_and_update (a : ndarray) (n : nat)
    (et ct : float) (ee : bool) (i : nat) (st : ransac_state)
    (w : world generator) (po pl : matrix) (re : float) :
  shape a = [n; 4; 4] -> wf a -> 3 <= n ->
  fit svd a (fst (sample_draw (rng generator w) n 3)) = Ok (po, pl, re) ->
  let inl := filter (fun k => (distance a po pl k <? et)%float) (seq 0 n) in
  let inlier_fraction :=
    (PrimFloat.of_uint63 (Uint63.of_Z (Z.of_nat (length inl)))
     / PrimFloat.of_uint63 (Uint63.of_Z (Z.of_nat n)))%float in
  let w' := {| rng := snd (sample_draw (rng generator w) n 3);
               stdout := stdout generator w |} in
  score a po pl et (seq 0 n) 0 [] = Ok (length inl, inl)
  /\ (forall k, In k inl <-> k < n /\ (distance a po pl k <? et)%float = true)
  /\ inlier_fraction = (float_of_nat (length inl) / float_of_nat n)%float
  /\ ransac_iteration svd generator sample_draw a n et ct ee i st w
     = (if (ct <? inlier_fraction)%float
           && (highest_number_of_inliers st <? Z.of_nat (length inl))%Z
        then match fit svd a inl with
             | Ok (bpo, bpl, bre) =>
                 let st' :=
                   {| highest_number_of_inliers := Z.of_nat (length inl);
                      best_pointer_offset := Some bpo;
                      best_pivot_location := Some bpl;
                      best_residual_error := bre |} in
                 (if ee then Return (Some bpo, Some bpl, bre) else Next st', w')
             | Raise e => (Throw e, w')
             end
        else (if (ct <? inlier_fraction)%float && ee
              then Return (best_model st) else Next st, w')).
Proof.
  intros Hs Hw Hn Hfit inl inlier_fraction w'.
  split; [apply (score_full a n po pl et Hs Hw)|].
  split; [apply In_inliers|].
  split; [reflexivity|].
  assert (Forall (fun k => k < n) (fst (sample_draw (rng generator w) n 3)))
    as Hidx.
  { rewrite fit_unfold in Hfit.
    destruct (take_rows a (fst (sample_draw (rng generator w) n 3)))
      as [sample|e] eqn:Ht; [|discriminate].
    exact (take_rows_valid a n _ _ sample Hs Ht). }
  rewrite (ransac_iteration_eq a n et ct ee i st w Hs Hw Hn Hidx).
  cbv zeta. rewrite Hfit. change (inliers a po pl et n) with inl. fold w'.
  change (percentage (length inl) n) with inlier_fraction.
  destruct ((ct <? inlier_fraction)%float
            && (highest_number_of_inliers st <? Z.of_nat (length inl))%Z);
    [|reflexivity].
  destruct (fit svd a inl) as [[[bpo bpl] bre]|e]; reflexivity.
Qed.

Lemma ransac_loop_app (a : ndarray) (n : nat) (et ct : float) (ee : bool)
    (l1 l2 : list nat) (st : ransac_state) (w : world generator) :
  ransac_loop svd generator sample_draw a n et ct ee (l1 ++ l2) st w
  = match ransac_loop svd generator sample_draw a n et ct ee l1 st w with
    | (Next st', w') =>
        ransac_loop svd generator sample_draw a n et ct ee l2 st' w'
    | stop => stop
    end.
Proof.
  revert st w. induction l1 as [|i l1 IH]; intros st w; cbn [app ransac_loop].
  - reflexivity.
  - destruct (ransac_iteration svd generator sample_draw a n et ct ee i st w)
      as [[st'|m|e] w']; [apply IH | reflexivity | reflexivity].
Qed.

(** A boolean property of the first [m] naturals fails everywhere or holds
    at a first index. *)
Lemma first_true (p : nat -> bool) (m : nat) :
  (forall j, j < m -> p j = false)
  \/ (exists i, i < m /\ p i = true /\ forall j, j < i -> p j = false).
Proof.
  induction m as [|m [IH | (i & Hi & Hp & Hj)]].
  - left. intros j Hj. lia.
  - destruct (p m) eqn:E.
    + right. exists m. repeat split; [lia | exact E | exact IH].
    + left. intros j Hj. destruct (Nat.eq_dec j m) as [->|]; [exact E|].
      apply IH. lia.
  - right. exists i. repeat split; [lia | exact Hp | exact Hj].
Qed.

Section Loop.

Variable a : ndarray.
Variable n : nat.
Variables et ct : float.
Hypothesis Hs : shape a = [n; 4; 4].
Hypothesis Hw : wf a.
Hypothesis Hn : 3 <= n.
Hypothesis Hdraw : forall g, Forall (fun k => k < n) (fst (sample_draw g n 3)).
Variable g0 : generator.

Local Abbreviation LOOP ee := (ransac_loop svd generator sample_draw a n et ct ee).
Local Abbreviation ITER ee := (ransac_iteration svd generator sample_draw a n et ct ee).
Local Abbreviation gen_at := (generator_at generator sample_draw g0 n).
Local Abbreviation inl_at := (inliers_at svd generator sample_draw a n et g0).
Local Abbreviation cons_at := (consensus_at svd generator sample_draw a n et ct g0).

Local Abbreviation drawn := (after_draw generator sample_draw n).

Lemma inliers_valid (po pl : matrix) :
  Forall (fun k => k < n) (inliers a po pl et n).
Proof.
  apply Forall_forall. intros k Hk. now apply In_inliers in Hk.
Qed.

Lemma iter_no_consensus (ee : bool) (k : nat) (st : ransac_state)
    (w : world generator) :
  rng generator w = gen_at k -> cons_at k = false ->
  exists w', ITER ee k st w = (Next st, w')
             /\ rng generator w' = gen_at (S k).
Proof.
  intros Hg Hc.
  rewrite (ransac_iteration_eq a n et ct ee k st w Hs Hw Hn (Hdraw _)).
  unfold consensus_at, inliers_at, indexes_at in Hc. rewrite <- Hg in Hc.
  cbv zeta. cbn [generator_at]. rewrite <- Hg.
  destruct (fit svd a (fst (sample_draw (rng generator w) n 3)))
    as [[[po pl] re]|e].
  - rewrite Hc. cbn [andb]. eexists. split; reflexivity.
  - eexists. split; reflexivity.
Qed.

Lemma iter_consensus (ee : bool) (k : nat) (st : ransac_state)
    (w : world generator) (inl : list nat) :
  rng generator w = gen_at k -> inl_at k = Some inl -> cons_at k = true ->
  ITER ee k st w
  = (if (highest_number_of_inliers st <? Z.of_nat (length inl))%Z
     then match fit svd a inl with
          | Ok c => if ee then Return (best_model (accepted inl c))
                    else Next (accepted inl c)
          | Raise e => Throw e
          end
     else if ee then Return (best_model st) else Next st, drawn w)
  /\ rng generator (drawn w) = gen_at (S k).
Proof.
  intros Hg Hi Hc.
  rewrite (ransac_iteration_eq a n et ct ee k st w Hs Hw Hn (Hdraw _)).
  unfold consensus_at in Hc. rewrite Hi in Hc.
  unfold inliers_at, indexes_at in Hi. rewrite <- Hg in Hi.
  cbv zeta. cbn [generator_at]. rewrite <- Hg. split; [|reflexivity].
  destruct (fit svd a (fst (sample_draw (rng generator w) n 3)))
    as [[[po pl] re]|e]; [|discriminate].
  injection Hi as Hi. rewrite Hi, Hc. cbn [andb].
  change (mk_world generator _ _) with (drawn w).
  destruct (highest_number_of_inliers st <? Z.of_nat (length inl))%Z;
    [|reflexivity].
  destruct (fit svd a inl); reflexivity.
Qed.

(** Iterations without consensus leave the state as it is. *)
Lemma loop_no_consensus (ee : bool) (m k : nat) (st : ransac_state)
    (w : world generator) :
  rng generator w = gen_at k ->
  (forall j, k <= j < k + m -> cons_at j = false) ->
  exists w', LOOP ee (seq k m) st w = (Next st, w')
             /\ rng generator w' = gen_at (k + m).
Proof.
  revert k w. induction m as [|m IH]; intros k w Hg Hc; cbn [seq ransac_loop].
  - exists w. now rewrite Nat.add_0_r.
  - destruct (iter_no_consensus ee k st w Hg) as (w1 & -> & Hg1);
      [apply Hc; lia|].
    destruct (IH (S k) w1 Hg1) as (w2 & H2 & Hg2);
      [intros j Hj; apply Hc; lia|].
    exists w2. split; [exact H2|]. now rewrite Nat.add_succ_r.
Qed.

Lemma is_set_accepted (inl : list nat) (c : calibration) :
  is_set (accepted inl c).
Proof.
  destruct c as [[po pl] re]. now exists po, pl.
Qed.

Lemma consensus_inliers (k : nat) :
  cons_at k = true -> exists inl, inl_at k = Some inl.
Proof.
  unfold consensus_at. destruct (inl_at k) as [inl|]; [eauto | discriminate].
Qed.

Lemma inl_at_valid (k : nat) (inl : list nat) :
  inl_at k = Some inl -> Forall (fun i => i < n) inl.
Proof.
  unfold inliers_at.
  destruct (fit svd a _) as [[[po pl] re]|e]; [|discriminate].
  intros H. injection H as <-. apply inliers_valid.
Qed.

(** Once a model is recorded, the loop ends with a recorded model, returns
    one, or leaves with the rank error of a refit. *)
Lemma loop_is_set (ee : bool) (m k : nat) (st : ransac_state)
    (w : world generator) :
  rng generator w = gen_at k -> is_set st ->
  match fst (LOOP ee (seq k m) st w) with
  | Next st' => is_set st'
  | Return (po, pl, _) => po <> None /\ pl <> None
  | Throw e => e = ValueError [msg_rank]
  end.
Proof.
  revert k st w. induction m as [|m IH]; intros k st w Hg Hset;
    cbn [seq ransac_loop]; [exact Hset|].
  destruct (cons_at k) eqn:Hc.
  - destruct (consensus_inliers k Hc) as [inl Hi].
    destruct (iter_consensus ee k st w inl Hg Hi Hc) as [-> Hg1].
    destruct (highest_number_of_inliers st <? Z.of_nat (length inl))%Z.
    + destruct (fit_cases a n inl Hs Hw (inl_at_valid k inl Hi))
        as [[c Hf] | Hf]; rewrite Hf.
      * destruct ee.
        -- cbn. destruct c as [[po pl] re]. cbn. split; discriminate.
        -- apply IH; [exact Hg1 | apply is_set_accepted].
      * reflexivity.
    + destruct ee.
      * cbn. destruct Hset as (po & pl & H1 & H2).
        unfold best_model. rewrite H1, H2. split; discriminate.
      * apply IH; assumption.
  - destruct (iter_no_consensus ee k st w Hg Hc) as (w1 & -> & Hg1).
    apply IH; assumption.
Qed.

Lemma loop_throw_origin (ee : bool) (m k : nat) (st : ransac_state)
    (w w' : world generator) (e : exn) :
  rng generator w = gen_at k ->
  LOOP ee (seq k m) st w = (Throw e, w') ->
  exists i inl, k <= i < k + m /\ inl_at i = Some inl /\ cons_at i = true
                /\ fit svd a inl = Raise e.
Proof.
  revert k st w. induction m as [|m IH]; intros k st w Hg;
    cbn [seq ransac_loop]; [discriminate|].
  destruct (cons_at k) eqn:Hc.
  - destruct (consensus_inliers k Hc) as [inl Hi].
    destruct (iter_consensus ee k st w inl Hg Hi Hc) as [-> Hg1].
    assert (forall st1, LOOP ee (seq (S k) m) st1 (drawn w) = (Throw e, w') ->
              exists i inl0, k <= i < k + S m /\ inl_at i = Some inl0
                             /\ cons_at i = true /\ fit svd a inl0 = Raise e)
      as Hrest.
    { intros st1 H. destruct (IH (S k) st1 (drawn w) Hg1 H)
        as (i & inl0 & Hi0 & H0).
      exists i, inl0. split; [lia | exact H0]. }
    destruct (highest_number_of_inliers st <? Z.of_nat (length inl))%Z.
    + destruct (fit svd a inl) as [c|e0] eqn:Hf.
      * destruct ee; [discriminate | apply Hrest].
      * intros H. injection H as <- _. exists k, inl.
        repeat split; [lia | lia | exact Hi | exact Hc | exact Hf].
    + destruct ee; [discriminate | apply Hrest].
  - destruct (iter_no_consensus ee k st w Hg Hc) as (w1 & -> & Hg1).
    intros H. destruct (IH (S k) st w1 Hg1 H) as (i & inl0 & Hi0 & H0).
    exists i, inl0. split; [lia | exact H0].
Qed.

Local Abbreviation best := (best_among svd generator sample_draw a n et ct g0).

(** What the loop has recorded after [k] iterations without early exit. *)
Local Abbreviation invariant k st :=
  ((st = initial_state /\ forall j, j < k -> cons_at j = false)
   \/ (exists i inl c, best k i inl /\ fit svd a inl = Ok c
                       /\ st = accepted inl c)).

Lemma highest_accepted (inl : list nat) (c : calibration) :
  highest_number_of_inliers (accepted inl c) = Z.of_nat (length inl).
Proof. now destruct c as [[po pl] re]. Qed.

Lemma invariant_step_none (k : nat) (st : ransac_state) :
  cons_at k = false -> invariant k st -> invariant (S k) st.
Proof.
  intros Hc [[-> H] | (i & inl & c & (Hi & Hinl & Hci & Hb) & Hf & ->)].
  - left. split; [reflexivity|]. intros j Hj.
    destruct (Nat.eq_dec j k) as [->|]; [exact Hc | apply H; lia].
  - right. exists i, inl, c. repeat split; try assumption; try lia.
    + destruct (Nat.eq_dec j k) as [->|]; [congruence|].
      apply (Hb j other); [lia | assumption | assumption].
    + destruct (Nat.eq_dec j k) as [->|]; [congruence|].
      apply (Hb j other); [lia | assumption | assumption].
Qed.

Lemma invariant_step_keep (k : nat) (st : ransac_state) (inl : list nat) :
  inl_at k = Some inl -> cons_at k = true ->
  (highest_number_of_inliers st <? Z.of_nat (length inl))%Z = false ->
  invariant k st -> invariant (S k) st.
Proof.
  intros Hik Hck Hh [[-> H] | (i & inl0 & c & (Hi & Hinl & Hci & Hb) & Hf & ->)].
  - apply Z.ltb_ge in Hh. cbn in Hh. lia.
  - rewrite highest_accepted in Hh. apply Z.ltb_ge in Hh.
    right. exists i, inl0, c. repeat split; try assumption; try lia.
    + destruct (Nat.eq_dec j k) as [->|].
      * assert (other = inl) as -> by congruence. lia.
      * apply (Hb j other); [lia | assumption | assumption].
    + destruct (Nat.eq_dec j k) as [->|]; [lia|].
      apply (Hb j other); [lia | assumption | assumption].
Qed.

Lemma invariant_step_replace (k : nat) (st : ransac_state) (inl : list nat)
    (c : calibration) :
  inl_at k = Some inl -> cons_at k = true ->
  (highest_number_of_inliers st <? Z.of_nat (length inl))%Z = true ->
  fit svd a inl = Ok c ->
  invariant k st -> invariant (S k) (accepted inl c).
Proof.
  intros Hik Hck Hh Hfit Hinv. apply Z.ltb_lt in Hh.
  right. exists k, inl, c. split; [|split; [exact Hfit | reflexivity]].
  split; [lia|]. split; [exact Hik|]. split; [exact Hck|].
  intros j other Hj Hij Hcj.
  destruct (Nat.eq_dec j k) as [->|Hjk].
  - assert (other = inl) as -> by congruence. lia.
  - destruct Hinv as [[-> H] | (i & inl0 & c0 & (Hi & Hinl & Hci & Hb) & Hf & ->)].
    + rewrite H in Hcj by lia. discriminate.
    + rewrite highest_accepted in Hh.
      destruct (Hb j other) as [Hle _]; [lia | assumption | assumption|].
      lia.
Qed.

Lemma loop_invariant (m k : nat) (st st' : ransac_state)
    (w w' : world generator) :
  rng generator w = gen_at k -> invariant k st ->
  LOOP false (seq k m) st w = (Next st', w') ->
  invariant (k + m) st'.
Proof.
  revert k st w. induction m as [|m IH]; intros k st w Hg Hinv;
    cbn [seq ransac_loop].
  - intros H. injection H as <- _. now rewrite Nat.add_0_r.
  - rewrite Nat.add_succ_r. change (S (k + m)) with (S k + m).
    destruct (cons_at k) eqn:Hc.
    + destruct (consensus_inliers k Hc) as [inl Hi].
      destruct (iter_consensus false k st w inl Hg Hi Hc) as [-> Hg1].
      destruct (highest_number_of_inliers st <? Z.of_nat (length inl))%Z eqn:Hh.
      * destruct (fit svd a inl) as [c|e] eqn:Hf; [|discriminate].
        apply (IH (S k) _ _ Hg1).
        now apply (invariant_step_replace k st inl c).
      * apply (IH (S k) _ _ Hg1).
        now apply (invariant_step_keep k st inl).
    + destruct (iter_no_consensus false k st w Hg Hc) as (w1 & -> & Hg1).
      apply (IH (S k) _ _ Hg1). now apply invariant_step_none.
Qed.

(** The loop up to and including the first iteration with consensus. *)
Lemma loop_first_consensus (ee : bool) (m i : nat) (inl : list nat)
    (w : world generator) :
  rng generator w = gen_at 0 -> i < m ->
  inl_at i = Some inl -> cons_at i = true ->
  (forall j, j < i -> cons_at j = false) ->
  exists w1, rng generator w1 = gen_at (S i) /\
    LOOP ee (seq 0 m) initial_state w
    = match fit svd a inl with
      | Ok c => if ee then (Return (model_of c), w1)
                else LOOP ee (seq (S i) (m - S i)) (accepted inl c) w1
      | Raise e => (Throw e, w1)
      end.
Proof.
  intros Hg Him Hi Hc Hfirst.
  destruct (loop_no_consensus ee i 0 initial_state w Hg) as (w0 & H0 & Hg0);
    [intros j Hj; apply Hfirst; lia|].
  cbn [Nat.add] in *.
  destruct (iter_consensus ee i initial_state w0 inl Hg0 Hi Hc) as [H1 Hg1].
  exists (drawn w0). split; [exact Hg1|].
  replace (seq 0 m) with (seq 0 i ++ i :: seq (S i) (m - S i)).
  2:{ change (i :: seq (S i) (m - S i)) with (seq (0 + i) (S (m - S i))).
      rewrite <- seq_app. f_equal. lia. }
  rewrite ransac_loop_app, H0. cbn [ransac_loop]. rewrite H1.
  assert ((highest_number_of_inliers initial_state <? Z.of_nat (length inl))%Z
          = true) as -> by (apply Z.ltb_lt; cbn; lia).
  destruct (fit svd a inl) as [c|e]; [|reflexivity].
  destruct ee; [|reflexivity].
  now destruct c as [[po pl] re].
Qed.

Lemma iteration_no_return (i : nat) (st : ransac_state)
    (w w' : world generator) (m : model) :
  ITER false i st w <> (Return m, w').
Proof.
  unfold ransac_iteration.
  destruct (random_sample generator sample_draw n 3 w) as [[idx|e] w0];
    [|discriminate].
  destruct (take_rows a idx) as [sample|e]; [|discriminate].
  destruct (pivot_calibration_none svd (PyArray sample)) as [[[po pl] re]|e].
  - destruct (score a po pl et (seq 0 n) 0 []) as [[k inl]|e]; [|discriminate].
    rewrite andb_false_r.
    destruct (_ && _)%bool.
    + destruct (take_rows a inl) as [im|e]; [|discriminate]. cbn [bind].
      destruct (pivot_calibration_none svd (PyArray im)) as [[[bpo bpl] bre]|e];
        discriminate.
    + discriminate.
  - destruct (is_ValueError e); discriminate.
Qed.

Lemma loop_no_return (l : list nat) (st : ransac_state)
    (w w' : world generator) (m : model) :
  LOOP false l st w <> (Return m, w').
Proof.
  revert st w. induction l as [|i l IH]; intros st w; cbn [ransac_loop];
    [discriminate|].
  destruct (ITER false i st w) as [[st1|m1|e1] w1] eqn:E.
  - apply IH.
  - exfalso. exact (iteration_no_return i st w w1 m1 E).
  - discriminate.
Qed.

(** How the whole loop ends, by the first iteration with consensus. *)
Lemma loop_result_cases (ee : bool) (iters : nat) (w : world generator) :
  rng generator w = gen_at 0 ->
  ((forall j, j < iters -> cons_at j = false)
   /\ exists w', LOOP ee (seq 0 iters) initial_state w
                 = (Next initial_state, w'))
  \/ (exists i inl w1,
        i < iters /\ inl_at i = Some inl /\ cons_at i = true
        /\ (forall j, j < i -> cons_at j = false)
        /\ rng generator w1 = gen_at (S i)
        /\ ((fit svd a inl = Raise (ValueError [msg_rank])
             /\ LOOP ee (seq 0 iters) initial_state w
                = (Throw (ValueError [msg_rank]), w1))
            \/ (exists c, fit svd a inl = Ok c /\ ee = true
                  /\ LOOP ee (seq 0 iters) initial_state w
                     = (Return (model_of c), w1))
            \/ (exists c, fit svd a inl = Ok c /\ ee = false
                  /\ ((exists w' i' inl' c',
                         best iters i' inl' /\ fit svd a inl' = Ok c'
                         /\ LOOP ee (seq 0 iters) initial_state w
                            = (Next (accepted inl' c'), w'))
                      \/ (exists w',
                            LOOP ee (seq 0 iters) initial_state w
                            = (Throw (ValueError [msg_rank]), w')))))).
Proof.
  intros Hg.
  destruct (first_true (fun j => cons_at j) iters)
    as [Hall | (i & Hi & Hc & Hfirst)].
  - left. split; [exact Hall|].
    destruct (loop_no_consensus ee iters 0 initial_state w Hg) as (w' & H & _);
      [intros j Hj; apply Hall; lia | eauto].
  - right. destruct (consensus_inliers i Hc) as [inl Hinl].
    destruct (loop_first_consensus ee iters i inl w Hg Hi Hinl Hc Hfirst)
      as (w1 & Hg1 & Hloop).
    exists i, inl, w1. do 5 (split; [assumption|]).
    destruct (fit_cases a n inl Hs Hw (inl_at_valid i inl Hinl))
      as [[c Hf] | Hf]; rewrite Hf in Hloop.
    2:{ left. now split. }
    right. destruct ee.
    { left. exists c. split; [exact Hf|]. split; [reflexivity | exact Hloop]. }
    right. exists c. split; [exact Hf|]. split; [reflexivity|].
    destruct (LOOP false (seq 0 iters) initial_state w) as [[st'|m|e] w'] eqn:E.
    + left. pose proof (loop_invariant iters 0 initial_state st' w w' Hg) as Hinv.
      destruct Hinv as [[-> Hnone] | (i' & inl' & c' & Hb & Hf' & ->)];
        [left; split; [reflexivity | intros j Hj; lia] | exact E | |].
      * rewrite (Hnone i) in Hc by lia. discriminate.
      * exists w', i', inl', c'.
        split; [exact Hb|]. split; [exact Hf' | reflexivity].
    + exfalso. exact (loop_no_return _ _ _ _ _ E).
    + right. exists w'.
      pose proof (loop_is_set false (iters - S i) (S i) (accepted inl c) w1
                    Hg1 (is_set_accepted inl c)) as Hset.
      rewrite <- Hloop in Hset. cbn [fst] in Hset. now rewrite Hset.
Qed.

End Loop.

Lemma ransac_valid_unfold (a : ndarray) (n : nat) (rest : list nat) (ni : Z)
    (et ct : float) (ee : bool) (w : world generator) :
  shape a = n :: rest ->
  (1 <= ni)%Z -> (et <? 0)%float = false ->
  ((ct <? 0)%float || (1 <? ct)%float) = false ->
  pivot_calibration_with_ransac svd generator sample_draw (PyArray a)
    ni et ct ee w
  = match ransac_loop svd generator sample_draw a n et ct ee
            (seq 0 (Z.to_nat ni)) initial_state w with
    | (Throw e, w') => (Raise e, w')
    | (Return m, w') => (Ok m, w')
    | (Next st, w') =>
        match best_pointer_offset st with
        | None => (Raise (ValueError [msg_no_model]), w')
        | Some _ =>
            (Ok (best_model st),
             print generator
               (PrintSummary n (highest_number_of_inliers st) et ct) w')
        end
    end.
Proof.
  intros Hs Hni Het Hct. unfold pivot_calibration_with_ransac.
  destruct (Z.ltb_spec ni 1) as [H|_]; [lia|].
  rewrite Het, Hct. unfold shape_at. rewrite Hs. reflexivity.
Qed.

Lemma rank_is_not_no_model {A : Type} :
  @Raise A (ValueError [msg_rank]) <> Raise (ValueError [msg_no_model]).
Proof. discriminate. Qed.

(** C7, as the code has it. For poses of shape (N, 4, 4) with N >= 3, valid
    parameters and a generator that draws indices below N:
    - the result is the no-model error exactly when every iteration ran and
      no candidate exceeded the consensus threshold;
    - with [early_exit], the first iteration whose candidate exceeds the
      threshold ends the call with the refit on its inliers (the model, or
      the exception of the refit), and no later iteration draws a sample;
    - without [early_exit], a returned model is the refit of the best
      iteration: the one with the most inliers among those whose candidate
      exceeded the threshold, the earliest of them on a tie;
    - a returned model has a pointer offset and a pivot location, and an
      exception is the no-model error or the rank error raised by the refit
      on the inliers of a candidate that exceeded the threshold. *)
Theorem ransac_outcome (a : ndarray) (n : nat) (ni : Z) (et ct : float)
    (ee : bool) (w : world generator) :
  shape a = [n; 4; 4] -> wf a -> 3 <= n ->
  (forall g, Forall (fun k => k < n) (fst (sample_draw g n 3))) ->
  (1 <= ni)%Z -> (et <? 0)%float = false ->
  ((ct <? 0)%float || (1 <? ct)%float) = false ->
  let iters := Z.to_nat ni in
  let g0 := rng generator w in
  let consensus := consensus_at svd generator sample_draw a n et ct g0 in
  let inliers_of := inliers_at svd generator sample_draw a n et g0 in
  let r := pivot_calibration_with_ransac svd generator sample_draw (PyArray a)
             ni et ct ee w in
  (fst r = Raise (ValueError [msg_no_model])
   <-> forall j, j < iters -> consensus j = false)
  /\ (ee = true -> forall i inl,
        i < iters -> inliers_of i = Some inl -> consensus i = true ->
        (forall j, j < i -> consensus j = false) ->
        fst r = (c <- fit svd a inl ;; Ok (model_of c))
        /\ rng generator (snd r) = generator_at generator sample_draw g0 n (S i))
  /\ (ee = false -> forall m, fst r = Ok m ->
        exists i inl c,
          best_among svd generator sample_draw a n et ct g0 iters i inl
          /\ fit svd a inl = Ok c /\ m = model_of c)
  /\ (forall m, fst r = Ok m -> exists po pl re, m = (Some po, Some pl, re))
  /\ (forall e, fst r = Raise e ->
        e = ValueError [msg_no_model]
        \/ (e = ValueError [msg_rank]
            /\ exists i inl,
                 i < iters /\ inliers_of i = Some inl /\ consensus i = true
                 /\ fit svd a inl = Raise (ValueError [msg_rank]))).
Proof.
  intros Hs Hw Hn Hdraw Hni Het Hct iters g0 consensus inliers_of r.
  subst r. rewrite (ransac_valid_unfold a n _ ni et ct ee w Hs Hni Het Hct).
  fold iters.
  assert (forall inl c, best_pointer_offset (accepted inl c) <> None) as Hacc.
  { intros inl [[po pl] re]. discriminate. }
  assert (forall inl c, best_model (accepted inl c) = model_of c) as Hbm.
  { intros inl [[po pl] re]. reflexivity. }
  assert (forall c, exists po pl re, model_of c = (Some po, Some pl, re)) as Hmc.
  { intros [[po pl] re]. now exists po, pl, re. }
  destruct (loop_result_cases a n et ct Hs Hw Hn Hdraw g0 ee iters w eq_refl)
    as [[Hall (w' & ->)]
       | (i & inl & w1 & Hi & Hinl & Hc & Hfirst & Hg1 &
          [[Hf ->] | [(c & Hf & Hee & ->) | (c & Hf & Hee &
             [(w' & i' & inl' & c' & Hb & Hf' & ->) | (w' & Hthrow)])]])];
    try rewrite Hthrow;
    cbn [best_pointer_offset initial_state fst snd].
  - (* no candidate exceeded the threshold *)
    split; [split; [intros _; exact Hall | reflexivity]|].
    split; [intros _ i inl Hi _ Hc _; unfold consensus in Hc;
            rewrite (Hall i Hi) in Hc; discriminate|].
    split; [intros _ m H; discriminate|].
    split; [intros m H; discriminate|].
    intros e H. injection H as <-. now left.
  - (* the refit of the first accepted candidate failed *)
    split; [split; [intros H; now apply rank_is_not_no_model in H
                   | intros H; unfold consensus in H;
                     rewrite (H i Hi) in Hc; discriminate]|].
    split.
    { intros _ i0 inl0 Hi0 Hinl0 Hc0 Hfirst0.
      assert (i0 = i) as ->.
      { destruct (Nat.lt_trichotomy i0 i) as [Hlt | [Heq | Hgt]]; [|exact Heq|].
        - unfold consensus in Hc0. rewrite (Hfirst i0 Hlt) in Hc0. discriminate.
        - unfold consensus in Hfirst0. rewrite (Hfirst0 i Hgt) in Hc. discriminate. }
      assert (inl0 = inl) as -> by (unfold inliers_of in Hinl0; congruence).
      rewrite Hf. split; [reflexivity | exact Hg1]. }
    split; [intros _ m H; discriminate|].
    split; [intros m H; discriminate|].
    intros e H. injection H as <-. right. split; [reflexivity|].
    exists i, inl. now repeat split.
  - (* early exit *)
    split; [split; [discriminate
                   | intros H; unfold consensus in H;
                     rewrite (H i Hi) in Hc; discriminate]|].
    split.
    { intros _ i0 inl0 Hi0 Hinl0 Hc0 Hfirst0.
      assert (i0 = i) as ->.
      { destruct (Nat.lt_trichotomy i0 i) as [Hlt | [Heq | Hgt]]; [|exact Heq|].
        - unfold consensus in Hc0. rewrite (Hfirst i0 Hlt) in Hc0. discriminate.
        - unfold consensus in Hfirst0. rewrite (Hfirst0 i Hgt) in Hc. discriminate. }
      assert (inl0 = inl) as -> by (unfold inliers_of in Hinl0; congruence).
      rewrite Hf. split; [reflexivity | exact Hg1]. }
    split; [intros H; congruence|].
    split; [intros m H; injection H as <-; apply Hmc|].
    intros e H. discriminate.
  - (* all iterations ran; a model is recorded *)
    destruct (best_pointer_offset (accepted inl' c')) eqn:Hbest;
      [|now apply Hacc in Hbest].
    cbn [fst snd]. rewrite Hbm.
    split; [split; [discriminate
                   | intros H; unfold consensus in H;
                     rewrite (H i Hi) in Hc; discriminate]|].
    split; [intros H; congruence|].
    split; [intros _ m H; injection H as <-; now exists i', inl', c'|].
    split; [intros m H; injection H as <-; apply Hmc|].
    intros e H. discriminate.
  - (* a later refit failed *)
    split; [split; [intros H; now apply rank_is_not_no_model in H
                   | intros H; unfold consensus in H;
                     rewrite (H i Hi) in Hc; discriminate]|].
    split; [intros H; congruence|].
    split; [intros _ m H; discriminate|].
    split; [intros m H; discriminate|].
    intros e H. injection H as <-. right. split; [reflexivity|].
    destruct (loop_throw_origin a n et ct Hs Hw Hn Hdraw g0 ee iters 0
                initial_state w w' _ eq_refl Hthrow)
      as (i0 & inl0 & Hi0 & Hinl0 & Hc0 & Hf0).
    exists i0, inl0. repeat split; [lia | assumption | assumption | assumption].
Qed.

(** C9. For poses of shape (N, 4, 4) with N >= 3 and a generator that draws
    indices below N: when the solver raises the rank error on the sample of
    an iteration, the iteration leaves the state as it is, prints that it
    failed, and the loop goes on with the next iteration; when the robust
    estimator does end with the rank error, that error was raised by the
    refit on the inliers of a candidate that exceeded the consensus
    threshold; and the rank error of the solver called through the
    dispatcher reaches the caller. *)
Theorem ransac_degenerate_sample_is_caught (a : ndarray) (n : nat)
    (et ct : float) (ee : bool) :
  shape a = [n; 4; 4] -> wf a -> 3 <= n ->
  (forall g, Forall (fun k => k < n) (fst (sample_draw g n 3))) ->
  (forall i rest st w,
     fit svd a (fst (sample_draw (rng generator w) n 3))
       = Raise (ValueError [msg_rank]) ->
     let w' := print generator (PrintIterationFailed i)
                 (after_draw generator sample_draw n w) in
     ransac_iteration svd generator sample_draw a n et ct ee i st w
       = (Next st, w')
     /\ ransac_loop svd generator sample_draw a n et ct ee (i :: rest) st w
        = ransac_loop svd generator sample_draw a n et ct ee rest st w')
  /\ (forall ni w,
        fst (pivot_calibration_with_ransac svd generator sample_draw
               (PyArray a) ni et ct ee w) = Raise (ValueError [msg_rank]) ->
        exists i inl,
          i < Z.to_nat ni
          /\ inliers_at svd generator sample_draw a n et (rng generator w) i
             = Some inl
          /\ consensus_at svd generator sample_draw a n et ct
               (rng generator w) i = true
          /\ fit svd a inl = Raise (ValueError [msg_rank]))
  /\ (forall w e,
        pivot_calibration_aos svd a = Raise e ->
        pivot_calibration svd generator sample_draw (PyArray a) None w
        = (Raise e, w)).
Proof.
  intros Hs Hw Hn Hdraw. split; [|split].
  - intros i rest st w Hfit w'.
    assert (ransac_iteration svd generator sample_draw a n et ct ee i st w
            = (Next st, w')) as Hit.
    { rewrite (ransac_iteration_eq a n et ct ee i st w Hs Hw Hn (Hdraw _)).
      cbv zeta. now rewrite Hfit. }
    split; [exact Hit|]. cbn [ransac_loop]. now rewrite Hit.
  - intros ni w. unfold pivot_calibration_with_ransac.
    destruct (ni <? 1)%Z; [discriminate|].
    destruct (et <? 0)%float; [discriminate|].
    destruct ((ct <? 0)%float || (1 <? ct)%float); [discriminate|].
    unfold shape_at. rewrite Hs. cbn [nth_error].
    destruct (ransac_loop svd generator sample_draw a n et ct ee
                (seq 0 (Z.to_nat ni)) initial_state w) as [[st'|m|e] w'] eqn:E.
    + destruct (best_pointer_offset st'); discriminate.
    + discriminate.
    + cbn [fst]. intros H. injection H as ->.
      destruct (loop_throw_origin a n et ct Hs Hw Hn Hdraw (rng generator w)
                  ee _ 0 initial_state w w' _ eq_refl E)
        as (i & inl & Hi & Hinl & Hc & Hf).
      exists i, inl. repeat split; [lia | assumption | assumption | assumption].
  - intros w e He. unfold pivot_calibration.
    rewrite (structural_check_ok a n Hs). now rewrite He.
Qed.

(** C8. Whatever the poses are, an array or not: with [number_iterations]
    below 1, [error_threshold] below 0, or [concensus_threshold] below 0 or
    above 1, the robust estimator raises one of its three parameter errors,
    for which the decomposition and the generator play no part: the world,
    generator included, is left as it was and nothing is printed. *)
Theorem ransac_parameter_validation (tm : pyobj) (ni : Z) (et ct : float)
    (ee : bool) (w : world generator) :
  (ni < 1)%Z \/ (et <? 0)%float = true
  \/ (ct <? 0)%float = true \/ (1 <? ct)%float = true ->
  exists msg,
    In msg [msg_iterations; msg_error_threshold; msg_concensus]
    /\ pivot_calibration_with_ransac svd generator sample_draw tm ni et ct ee w
       = (Raise (ValueError [msg]), w)
    /\ kind_of (ValueError [msg]) = Some ConfigError.
Proof.
  intros H. unfold pivot_calibration_with_ransac.
  destruct (Z.ltb_spec ni 1) as [Hni|Hni].
  { exists msg_iterations. cbn. auto. }
  destruct (et <? 0)%float eqn:Het.
  { exists msg_error_threshold. cbn. auto. }
  destruct ((ct <? 0)%float || (1 <? ct)%float) eqn:Hct.
  { exists msg_concensus. cbn. auto. }
  exfalso. apply orb_false_elim in Hct. destruct Hct as [H0 H1].
  destruct H as [H | [H | [H | H]]]; [lia | | |]; congruence.
Qed.

(** C10. For poses of shape (N, 4, 4) with N < 3 and valid parameters, the
    robust estimator ends in its first iteration with the error of
    [random.sample], whatever the decomposition is: no model is fitted, the
    generator is left as it was, and the error is none of the four kinds. *)
Theorem ransac_small_population (a : ndarray) (n : nat) (ni : Z)
    (et ct : float) (ee : bool) (w : world generator) :
  shape a = [n; 4; 4] -> n < 3 ->
  (1 <= ni)%Z -> (et <? 0)%float = false ->
  ((ct <? 0)%float || (1 <? ct)%float) = false ->
  pivot_calibration_with_ransac svd generator sample_draw (PyArray a)
    ni et ct ee w
  = (Raise (ValueError [msg_sample]), w)
  /\ kind_of (ValueError [msg_sample]) = None.
Proof.
  intros Hs Hn Hni Het Hct. split; [|reflexivity].
  rewrite (ransac_valid_unfold a n _ ni et ct ee w Hs Hni Het Hct).
  destruct (Z.to_nat ni) as [|k] eqn:Hk; [lia|].
  cbn [seq ransac_loop]. unfold ransac_iteration, random_sample.
  destruct (Nat.ltb_spec n 3) as [_|H]; [reflexivity | lia].
Qed.

(** C5. Once the structural check has passed: without a configuration, and
    with a configuration whose method is absent or is "aos", the dispatcher
    returns what the closed-form solver returns, whatever the other fields
    are; with method "ransac" it calls the robust estimator with the fields
    of the configuration, and with 10, 4, 0.25 and False for those that are
    absent; with any other method it raises an error whose arguments name
    that method. *)
Theorem pivot_calibration_routing (tm : pyobj) (a : ndarray)
    (w : world generator) :
  structural_check tm = Ok a ->
  pivot_calibration svd generator sample_draw tm None w
    = (c <- pivot_calibration_aos svd a ;; Ok (model_of c), w)
  /\ (forall cfg,
        method cfg = None \/ method cfg = Some "aos"%string ->
        pivot_calibration svd generator sample_draw tm (Some cfg) w
        = (c <- pivot_calibration_aos svd a ;; Ok (model_of c), w))
  /\ (forall cfg,
        method cfg = Some "ransac"%string ->
        pivot_calibration svd generator sample_draw tm (Some cfg) w
        = pivot_calibration_with_ransac svd generator sample_draw tm
            (get (number_iterations cfg) 10%Z)
            (get (error_threshold cfg) 4%float)
            (get (consensus_threshold cfg) 0.25%float)
            (get (early_exit cfg) false) w)
  /\ pivot_calibration svd generator sample_draw tm
       (Some (mk_configuration (Some "ransac"%string) None None None None)) w
     = pivot_calibration_with_ransac svd generator sample_draw tm
         10%Z 4%float 0.25%float false w
  /\ (forall cfg m,
        method cfg = Some m -> m <> "aos"%string -> m <> "ransac"%string ->
        pivot_calibration svd generator sample_draw tm (Some cfg) w
        = (Raise (ValueError [msg_unknown_method; m]), w)
        /\ kind_of (ValueError [msg_unknown_method; m]) = Some ConfigError).
Proof.
  intros Hc. unfold pivot_calibration. rewrite Hc.
  split; [reflexivity|].
  split; [intros cfg [-> | ->]; reflexivity|].
  split; [intros cfg ->; reflexivity|].
  split; [reflexivity|].
  intros cfg m -> Haos Hransac. cbn [get].
  apply String.eqb_neq in Haos, Hransac. rewrite Haos, Hransac. cbn.
  split; reflexivity.
Qed.

End Estimator.

(** ** The theorems at concrete pose arrays *)

Lemma cyclic_draw_valid (n : nat) :
  0 < n ->
  forall g, Forall (fun k => k < n) (fst (Cyclic.sample_draw g n 3)).
Proof.
  intros Hn g. unfold Cyclic.sample_draw. cbn [fst].
  apply Forall_forall. intros k Hk. apply in_map_iff in Hk.
  destruct Hk as (i & <- & _). apply Nat.mod_upper_bound. lia.
Qed.

(** Two poses with one rotation have rank 3 and are refused; the four poses
    of [poses_exact] have rank 6. *)
Lemma aos_degenerate_witness :
  (shape poses_same_rotation = [2; 4; 4] /\ wf poses_same_rotation
   /\ pivot_calibration_aos Jacobi.svd poses_same_rotation
      = Raise (ValueError [msg_rank]))
  /\ (shape poses_exact = [4; 4; 4] /\ wf poses_exact
      /\ ~ pivot_calibration_aos Jacobi.svd poses_exact
           = Raise (ValueError [msg_rank])).
Proof.
  split; (split; [reflexivity|]; split; [reflexivity|]).
  - apply (aos_degenerate_iff_rank_deficient Jacobi.svd poses_same_rotation 2
             eq_refl eq_refl).
    vm_compute. lia.
  - intros H.
    apply (aos_degenerate_iff_rank_deficient Jacobi.svd poses_exact 4
             eq_refl eq_refl) in H.
    vm_compute in H. lia.
Defined.

(** C2 fails as stated: on two poses whose rotation blocks are nearly the
    same, the fourth singular value is below 0.01 and its reciprocal is the
    fourth entry of [1 / s_values]; the solution computed with it is not the
    one in which that singular value contributes zero. *)
Lemma aos_reciprocal_counterexample :
  (exists s,
     nth_error (singular_values Jacobi.svd (stacked_a poses_nearly_same 2)) 3
       = Some s
     /\ (s <? 0.01)%float = true
     /\ nth_error (aos_reciprocals Jacobi.svd (stacked_a poses_nearly_same 2)) 3
        = Some (1 / s)%float)
  /\ aos_solution Jacobi.svd (stacked_a poses_nearly_same 2)
       (stacked_b poses_nearly_same 2)
     <> aos_solution_spec Jacobi.svd (stacked_a poses_nearly_same 2)
          (stacked_b poses_nearly_same 2)
  /\ aos_system poses_nearly_same
     = Ok (stacked_a poses_nearly_same 2, stacked_b poses_nearly_same 2).
Proof.
  split; [|split].
  - eexists. split; [vm_compute; reflexivity|].
    split; vm_compute; reflexivity.
  - intros H.
    apply (f_equal (fun m => match m with
                             | (v :: _) :: _ => (v <? 0)%float
                             | _ => false
                             end)) in H.
    vm_compute in H. discriminate.
  - now apply aos_system_eq.
Defined.

Lemma aos_returned_solution_witness :
  shape poses_exact = [4; 4; 4] /\ wf poses_exact
  /\ length (singular_values Jacobi.svd (stacked_a poses_exact 4)) <= 6
  /\ exists c,
       pivot_calibration_aos Jacobi.svd poses_exact = Ok c
       /\ snd (aos_rank Jacobi.svd (stacked_a poses_exact 4))
          = singular_values Jacobi.svd (stacked_a poses_exact 4)
       /\ fst (fst c)
          = firstn 3 (aos_solution_spec Jacobi.svd (stacked_a poses_exact 4)
                        (stacked_b poses_exact 4)).
Proof.
  split; [reflexivity|]. split; [reflexivity|].
  assert (length (singular_values Jacobi.svd (stacked_a poses_exact 4)) <= 6)
    as Hk by (vm_compute; lia).
  split; [exact Hk|].
  eexists. split; [vm_compute; reflexivity|].
  match goal with
  | |- _ /\ fst (fst ?c) = _ =>
      destruct (aos_returned_solution_has_no_zeroed_value Jacobi.svd
                  poses_exact 4 c eq_refl eq_refl Hk
                  ltac:(vm_compute; reflexivity))
        as (_ & _ & H3 & _ & H5 & _)
  end.
  split; [exact H3 | exact H5].
Defined.

Lemma aos_system_and_result_witness :
  shape poses_exact = [4; 4; 4] /\ wf poses_exact
  /\ exists po pl re,
       pivot_calibration_aos Jacobi.svd poses_exact = Ok (po, pl, re)
       /\ exists a_values b_values,
            aos_system poses_exact = Ok (a_values, b_values)
            /\ firstn 3 (skipn 3 a_values)
               = [[0; -1; 0; -1; -0; -0]; [1; 0; 0; -0; -1; -0];
                  [0; 0; 1; -0; -0; -1]]%float
            /\ firstn 3 (skipn 3 b_values) = [[-12]; [-19]; [-27]]%float
            /\ pl = skipn 3 (aos_solution Jacobi.svd a_values b_values).
Proof.
  split; [reflexivity|]. split; [reflexivity|].
  eexists _, _, _. split; [vm_compute; reflexivity|].
  match goal with
  | |- exists a_values b_values, _ /\ _ /\ _ /\ ?pl = _ =>
      destruct (aos_system_and_result Jacobi.svd poses_exact 4 _ pl _
                  eq_refl eq_refl ltac:(vm_compute; reflexivity))
        as (a_values & b_values & Hsys & Hblocks & _ & Hres)
  end.
  exists a_values, b_values. split; [exact Hsys|].
  destruct (Hblocks 1 ltac:(lia)) as [Ha Hb].
  split; [exact Ha|]. split; [exact Hb|].
  cbv zeta in Hres. now destruct Hres as (_ & _ & Hpl & _).
Defined.

(** C4. On an array of shape (3, 3, 4) the robust estimator checks no shape:
    it draws ten samples, takes the shape error of the dispatcher on each
    for a failed iteration, and ends with the no-model error; the dispatcher
    refuses the same array at once. *)
Theorem ransac_takes_shape_error_for_failed_iteration :
  pivot_calibration_with_ransac Jacobi.svd Cyclic.generator Cyclic.sample_draw
    (PyArray poses_three_rows) 10 4 0.25 false w0
  = (Raise (ValueError [msg_no_model]),
     {| rng := 10;
        stdout := map PrintIterationFailed (seq 0 10) |})
  /\ kind_of (ValueError [msg_no_model]) = Some NoConsensusError
  /\ pivot_calibration Jacobi.svd Cyclic.generator Cyclic.sample_draw
       (PyArray poses_three_rows) None w0
     = (Raise (ValueError [msg_rows]), w0)
  /\ kind_of (ValueError [msg_rows]) = Some ShapeError.
Proof.
  repeat split; vm_compute; reflexivity.
Qed.

Lemma pivot_calibration_routing_witness :
  structural_check (PyArray poses_exact) = Ok poses_exact
  /\ pivot_calibration Jacobi.svd Cyclic.generator Cyclic.sample_draw
       (PyArray poses_exact)
       (Some (mk_configuration (Some "ransac"%string) None None None None)) w0
     = pivot_calibration_with_ransac Jacobi.svd Cyclic.generator
         Cyclic.sample_draw (PyArray poses_exact) 10 4 0.25 false w0
  /\ pivot_calibration Jacobi.svd Cyclic.generator Cyclic.sample_draw
       (PyArray poses_exact)
       (Some (mk_configuration (Some "lsq"%string) (Some 5%Z) None None None))
       w0
     = (Raise (ValueError [msg_unknown_method; "lsq"%string]), w0).
Proof.
  split; [reflexivity|].
  destruct (pivot_calibration_routing Jacobi.svd Cyclic.generator
              Cyclic.sample_draw (PyArray poses_exact) poses_exact w0 eq_refl)
    as (_ & _ & _ & Hr & Hu).
  split; [exact Hr|].
  apply (Hu (mk_configuration (Some "lsq"%string) (Some 5%Z) None None None)
            "lsq"%string eq_refl); discriminate.
Defined.

Lemma ransac_iteration_witness :
  shape poses_outlier = [6; 4; 4] /\ wf poses_outlier /\ 3 <= 6
  /\ exists po pl re,
       fit Jacobi.svd poses_outlier
         (fst (Cyclic.sample_draw (rng Cyclic.generator w0) 6 3))
       = Ok (po, pl, re)
       /\ score poses_outlier po pl 0.5 (seq 0 6) 0 [] = Ok (5, [0; 1; 2; 3; 4])
       /\ (PrimFloat.of_uint63 (Uint63.of_Z 5) / PrimFloat.of_uint63 (Uint63.of_Z 6))%float
          = 0.83333333333333337%float
       /\ (exists c,
             fit Jacobi.svd poses_outlier [0; 1; 2; 3; 4] = Ok c
             /\ ransac_iteration Jacobi.svd Cyclic.generator Cyclic.sample_draw
                  poses_outlier 6 0.5 0.25 false 0 (initial_state) w0
                = (Next (accepted [0; 1; 2; 3; 4] c),
                   {| rng := 1; stdout := [] |}))
       /\ ransac_iteration Jacobi.svd Cyclic.generator Cyclic.sample_draw
            poses_outlier 6 0.5 0.9 false 0 (initial_state) w0
          = (Next initial_state, {| rng := 1; stdout := [] |}).
Proof.
  split; [reflexivity|]. split; [reflexivity|]. split; [lia|].
  eexists _, _, _. split; [vm_compute; reflexivity|].
  match goal with
  | |- score _ ?po ?pl _ _ _ _ = _ /\ _ =>
      pose proof (ransac_iteration_scoring_and_update Jacobi.svd
                    Cyclic.generator Cyclic.sample_draw poses_outlier 6
                    0.5 0.25 false 0 initial_state w0 po pl _
                    eq_refl eq_refl ltac:(lia)
                    ltac:(vm_compute; reflexivity)) as H;
      pose proof (ransac_iteration_scoring_and_update Jacobi.svd
                    Cyclic.generator Cyclic.sample_draw poses_outlier 6
                    0.5 0.9 false 0 initial_state w0 po pl _
                    eq_refl eq_refl ltac:(lia)
                    ltac:(vm_compute; reflexivity)) as H'
  end.
  cbv zeta in H, H'. destruct H as (Hscore & _ & _ & Hiter).
  destruct H' as (_ & _ & _ & Hiter').
  split; [rewrite Hscore; vm_compute; reflexivity|].
  split; [vm_compute; reflexivity|].
  split.
  - eexists. split; [vm_compute; reflexivity|].
    rewrite Hiter. vm_compute. reflexivity.
  - rewrite Hiter'. vm_compute. reflexivity.
Defined.

Lemma ransac_outcome_witness :
  (shape poses_outlier = [6; 4; 4] /\ wf poses_outlier /\ 3 <= 6
   /\ (forall g, Forall (fun k => k < 6) (fst (Cyclic.sample_draw g 6 3)))
   /\ (1 <= 10)%Z /\ (0.5 <? 0)%float = false
   /\ ((0.25 <? 0)%float || (1 <? 0.25)%float) = false)
  /\ (exists i inl c,
        best_among Jacobi.svd Cyclic.generator Cyclic.sample_draw
          poses_outlier 6 0.5 0.25 0 10 i inl
        /\ fit Jacobi.svd poses_outlier inl = Ok c
        /\ fst (pivot_calibration_with_ransac Jacobi.svd Cyclic.generator
                  Cyclic.sample_draw (PyArray poses_outlier) 10 0.5 0.25
                  false w0)
           = Ok (model_of c))
  /\ rng Cyclic.generator
       (snd (pivot_calibration_with_ransac Jacobi.svd Cyclic.generator
               Cyclic.sample_draw (PyArray poses_outlier) 10 0.5 0.25
               true w0))
     = 1.
Proof.
  assert (forall g, Forall (fun k => k < 6) (fst (Cyclic.sample_draw g 6 3)))
    as Hdraw by (apply cyclic_draw_valid; lia).
  split; [repeat split; try reflexivity; try lia; exact Hdraw|].
  split.
  - destruct (ransac_outcome Jacobi.svd Cyclic.generator Cyclic.sample_draw
                poses_outlier 6 10 0.5 0.25 false w0
                eq_refl eq_refl ltac:(lia) Hdraw ltac:(lia) eq_refl eq_refl)
      as (_ & _ & H3 & _).
    assert (exists m,
              fst (pivot_calibration_with_ransac Jacobi.svd Cyclic.generator
                     Cyclic.sample_draw (PyArray poses_outlier) 10 0.5 0.25
                     false w0) = Ok m) as [m Hm]
      by (eexists; vm_compute; reflexivity).
    destruct (H3 eq_refl m Hm) as (i & inl & c & Hb & Hf & ->).
    exists i, inl, c. split; [exact Hb|]. split; [exact Hf | exact Hm].
  - destruct (ransac_outcome Jacobi.svd Cyclic.generator Cyclic.sample_draw
                poses_outlier 6 10 0.5 0.25 true w0
                eq_refl eq_refl ltac:(lia) Hdraw ltac:(lia) eq_refl eq_refl)
      as (_ & H2 & _).
    apply (H2 eq_refl 0 [0; 1; 2; 3; 4]).
    + cbv zeta. vm_compute. lia.
    + vm_compute. reflexivity.
    + vm_compute. reflexivity.
    + intros j Hj. lia.
Defined.

(** C7 fails as stated: on three poses of which one is off, with
    [error_threshold] 1 and [concensus_threshold] 0.25, the candidate of the
    first iteration has one inlier out of three, which exceeds the
    threshold; the refit on that one pose has rank below 6, and its error
    leaves the robust estimator: the call neither raises the no-model error
    nor returns a model. *)
Lemma ransac_refit_failure_counterexample :
  inliers_at Jacobi.svd Cyclic.generator Cyclic.sample_draw poses_three 3 1 0 0
    = Some [1]
  /\ consensus_at Jacobi.svd Cyclic.generator Cyclic.sample_draw poses_three 3
       1 0.25 0 0 = true
  /\ fit Jacobi.svd poses_three [1] = Raise (ValueError [msg_rank])
  /\ fst (pivot_calibration_with_ransac Jacobi.svd Cyclic.generator
            Cyclic.sample_draw (PyArray poses_three) 10 1 0.25 false w0)
     = Raise (ValueError [msg_rank])
  /\ fst (pivot_calibration_with_ransac Jacobi.svd Cyclic.generator
            Cyclic.sample_draw (PyArray poses_three) 10 1 0.25 false w0)
     <> Raise (ValueError [msg_no_model])
  /\ ~ (exists m,
          fst (pivot_calibration_with_ransac Jacobi.svd Cyclic.generator
                 Cyclic.sample_draw (PyArray poses_three) 10 1 0.25 false w0)
          = Ok m).
Proof.
  assert (fst (pivot_calibration_with_ransac Jacobi.svd Cyclic.generator
                 Cyclic.sample_draw (PyArray poses_three) 10 1 0.25 false w0)
          = Raise (ValueError [msg_rank])) as H
    by (vm_compute; reflexivity).
  split; [vm_compute; reflexivity|].
  split; [vm_compute; reflexivity|].
  split; [vm_compute; reflexivity|].
  split; [exact H|]. rewrite H.
  split; [discriminate|]. intros [m Hm]. discriminate.
Defined.

Lemma ransac_parameter_validation_witness :
  ((0 < 1)%Z
   /\ exists msg,
        In msg [msg_iterations; msg_error_threshold; msg_concensus]
        /\ pivot_calibration_with_ransac Jacobi.svd Cyclic.generator
             Cyclic.sample_draw PyOther 0 4 0.25 false w0
           = (Raise (ValueError [msg]), w0)
        /\ kind_of (ValueError [msg]) = Some ConfigError)
  /\ ((-1 <? 0)%float = true
      /\ exists msg,
           In msg [msg_iterations; msg_error_threshold; msg_concensus]
           /\ pivot_calibration_with_ransac Jacobi.svd Cyclic.generator
                Cyclic.sample_draw (PyArray poses_exact) 10 (-1) 0.25 false w0
              = (Raise (ValueError [msg]), w0)
           /\ kind_of (ValueError [msg]) = Some ConfigError)
  /\ ((1 <? 1.5)%float = true
      /\ exists msg,
           In msg [msg_iterations; msg_error_threshold; msg_concensus]
           /\ pivot_calibration_with_ransac Jacobi.svd Cyclic.generator
                Cyclic.sample_draw (PyArray poses_exact) 10 4 1.5 false w0
              = (Raise (ValueError [msg]), w0)
           /\ kind_of (ValueError [msg]) = Some ConfigError).
Proof.
  split; [|split].
  - split; [lia|]. apply ransac_parameter_validation. left. lia.
  - split; [reflexivity|]. apply ransac_parameter_validation.
    right. left. reflexivity.
  - split; [reflexivity|]. apply ransac_parameter_validation.
    right. right. right. reflexivity.
Defined.

Lemma ransac_degenerate_sample_witness :
  (shape poses_repeat = [6; 4; 4] /\ wf poses_repeat /\ 3 <= 6
   /\ (forall g, Forall (fun k => k < 6) (fst (Cyclic.sample_draw g 6 3))))
  /\ fit Jacobi.svd poses_repeat
       (fst (Cyclic.sample_draw (rng Cyclic.generator w0) 6 3))
     = Raise (ValueError [msg_rank])
  /\ ransac_iteration Jacobi.svd Cyclic.generator Cyclic.sample_draw
       poses_repeat 6 0.5 0.25 false 0 initial_state w0
     = (Next initial_state,
        print Cyclic.generator (PrintIterationFailed 0)
          (after_draw Cyclic.generator Cyclic.sample_draw 6 w0)).
Proof.
  assert (forall g, Forall (fun k => k < 6) (fst (Cyclic.sample_draw g 6 3)))
    as Hdraw by (apply cyclic_draw_valid; lia).
  split; [repeat split; try reflexivity; try lia; exact Hdraw|].
  assert (fit Jacobi.svd poses_repeat
            (fst (Cyclic.sample_draw (rng Cyclic.generator w0) 6 3))
          = Raise (ValueError [msg_rank])) as Hfit
    by (vm_compute; reflexivity).
  split; [exact Hfit|].
  destruct (ransac_degenerate_sample_is_caught Jacobi.svd Cyclic.generator
              Cyclic.sample_draw poses_repeat 6 0.5 0.25 false
              eq_refl eq_refl ltac:(lia) Hdraw) as (H1 & _).
  exact (proj1 (H1 0 [] initial_state w0 Hfit)).
Defined.

Lemma ransac_small_population_witness :
  (shape poses_same_rotation = [2; 4; 4] /\ 2 < 3 /\ (1 <= 10)%Z
   /\ (4 <? 0)%float = false
   /\ ((0.25 <? 0)%float || (1 <? 0.25)%float) = false)
  /\ pivot_calibration_with_ransac Jacobi.svd Cyclic.generator
       Cyclic.sample_draw (PyArray poses_same_rotation) 10 4 0.25 false w0
     = (Raise (ValueError [msg_sample]), w0).
Proof.
  split; [repeat split; try reflexivity; lia|].
  apply (ransac_small_population Jacobi.svd Cyclic.generator
           Cyclic.sample_draw poses_same_rotation 2 10 4 0.25 false w0);
    try reflexivity; lia.
Defined.

(** ** Further properties of the four functions *)

(** *** The structural check of the dispatcher *)

(** X1. The dispatcher looks at [shape[1]] and [shape[2]] only, and it does
    so before it looks at the configuration: an object that is no array, an
    array whose second dimension is not 4, one whose third dimension is not
    4, and one with fewer than three dimensions are refused with the same
    exception whatever the configuration is, the last with an [IndexError]
    that is none of the four kinds; an array passes exactly when its shape
    is (N, 4, 4, ...), whatever follows the third dimension. *)
Theorem dispatcher_structural_outcomes
    (svd : matrix -> matrix * list float * matrix) (generator : Type)
    (sample_draw : generator -> nat -> nat -> list nat * generator)
    (config : option configuration) (w : world generator) :
  pivot_calibration svd generator sample_draw PyOther config w
    = (Raise (TypeError [msg_not_array]), w)
  /\ (forall a n d1 rest,
        shape a = n :: d1 :: rest -> d1 <> 4 ->
        pivot_calibration svd generator sample_draw (PyArray a) config w
        = (Raise (ValueError [msg_rows]), w))
  /\ (forall a n d2 rest,
        shape a = n :: 4 :: d2 :: rest -> d2 <> 4 ->
        pivot_calibration svd generator sample_draw (PyArray a) config w
        = (Raise (ValueError [msg_columns]), w))
  /\ (forall a,
        length (shape a) < 2 \/ (exists n, shape a = [n; 4]) ->
        pivot_calibration svd generator sample_draw (PyArray a) config w
        = (Raise (IndexError ["tuple index out of range"%string]), w)
        /\ kind_of (IndexError ["tuple index out of range"%string]) = None)
  /\ (forall a,
        structural_check (PyArray a) = Ok a
        <-> exists n rest, shape a = n :: 4 :: 4 :: rest).
Proof.
  split; [reflexivity|].
  split.
  { intros a n d1 rest Hs Hd. unfold pivot_calibration, structural_check, shape_at.
    rewrite Hs. cbn [nth_error bind].
    apply Nat.eqb_neq in Hd. now rewrite Hd. }
  split.
  { intros a n d2 rest Hs Hd. unfold pivot_calibration, structural_check, shape_at.
    rewrite Hs. cbn [nth_error bind Nat.eqb negb].
    apply Nat.eqb_neq in Hd. now rewrite Hd. }
  split.
  { intros a H. split; [|reflexivity].
    unfold pivot_calibration, structural_check, shape_at.
    destruct H as [H | [n ->]]; [|reflexivity].
    destruct (shape a) as [|n [|d1 rest]]; cbn in H; try lia; reflexivity. }
  intros a. unfold structural_check, shape_at. split.
  - destruct (shape a) as [|n [|d1 [|d2 rest]]]; cbn [nth_error bind];
      try discriminate.
    + destruct (d1 =? 4); discriminate.
    + destruct (Nat.eqb_spec d1 4) as [->|]; [|discriminate]. cbn [negb].
      destruct (Nat.eqb_spec d2 4) as [->|]; [|discriminate].
      intros _. now exists n, rest.
  - intros (n & rest & ->). reflexivity.
Qed.

Lemma dispatcher_structural_witness :
  (shape poses_three_rows = [3; 3; 4] /\ 3 <> 4
   /\ pivot_calibration Jacobi.svd Cyclic.generator Cyclic.sample_draw
        (PyArray poses_three_rows)
        (Some (mk_configuration (Some "ransac"%string) (Some 0%Z) None None None))
        w0
      = (Raise (ValueError [msg_rows]), w0))
  /\ pivot_calibration Jacobi.svd Cyclic.generator Cyclic.sample_draw
       (PyArray {| shape := [2; 4]; data := repeat 0%float 8 |})
       (Some (mk_configuration (Some "lsq"%string) None None None None)) w0
     = (Raise (IndexError ["tuple index out of range"%string]), w0).
Proof.
  split.
  - split; [reflexivity|]. split; [discriminate|].
    destruct (dispatcher_structural_outcomes Jacobi.svd Cyclic.generator
                Cyclic.sample_draw
                (Some (mk_configuration (Some "ransac"%string) (Some 0%Z)
                         None None None)) w0) as (_ & Hrows & _).
    apply (Hrows poses_three_rows 3 3 [4]); [reflexivity | discriminate].
  - destruct (dispatcher_structural_outcomes Jacobi.svd Cyclic.generator
                Cyclic.sample_draw
                (Some (mk_configuration (Some "lsq"%string) None None None None))
                w0) as (_ & _ & _ & Hshort & _).
    apply Hshort. right. now exists 2.
Defined.

(** *** The rank estimator *)

(** X2. For any threshold and replacement value, the rank estimator leaves
    the length of the list as it is, counts no more values than the list
    has, counts together with the values below the threshold all of them,
    changes no value that is not below the threshold, and changes nothing
    when it counts them all. *)
Theorem replace_small_values_outcome (l : list float) (thr rep : float) :
  let rank := fst (replace_small_values l thr rep) in
  let out := snd (replace_small_values l thr rep) in
  length out = length l
  /\ rank <= length l
  /\ rank + length (filter (fun v => (v <? thr)%float) l) = length l
  /\ (forall i v, nth_error l i = Some v -> (v <? thr)%float = false ->
                  nth_error out i = Some v)
  /\ (forall i v, nth_error l i = Some v -> (v <? thr)%float = true ->
                  nth_error out i = Some rep)
  /\ (rank = length l -> out = l).
Proof.
  rewrite replace_small_values_spec. cbn [fst snd].
  split; [apply length_map|].
  split; [apply filter_length_le|].
  assert (length (filter (fun s => negb (s <? thr)%float) l)
          + length (filter (fun v => (v <? thr)%float) l) = length l) as Hsum.
  { induction l as [|x l IH]; [reflexivity|]. cbn [filter].
    destruct (x <? thr)%float; cbn [negb length]; lia. }
  split; [exact Hsum|].
  split; [intros i v Hi Hv; rewrite nth_error_map, Hi; cbn; now rewrite Hv|].
  split; [intros i v Hi Hv; rewrite nth_error_map, Hi; cbn; now rewrite Hv|].
  intros Hall.
  assert (Forall (fun s => negb (s <? thr)%float = true) l) as HF
    by (apply filter_all; lia).
  rewrite <- (map_id l) at 2. apply map_ext_in. intros x Hx.
  rewrite Forall_forall in HF. specialize (HF x Hx).
  now destruct (x <? thr)%float.
Qed.

Lemma filter_map_length {A B : Type} (p : B -> bool) (g : A -> B) (l : list A) :
  length (filter p (map g l)) = length (filter (fun x => p (g x)) l).
Proof.
  induction l as [|x l IH]; [reflexivity|]. cbn [map filter].
  destruct (p (g x)); cbn [length]; now rewrite IH.
Qed.

(** X3. Run on the list it has left behind, the rank estimator returns the
    same rank and changes nothing when the replacement value is below the
    threshold (as 0.0 is below 0.01); when the replacement value is not
    below the threshold, the second run counts every value. *)
Theorem replace_small_values_again (l : list float) (thr rep : float) :
  ((rep <? thr)%float = true ->
   replace_small_values (snd (replace_small_values l thr rep)) thr rep
   = replace_small_values l thr rep)
  /\ ((rep <? thr)%float = false ->
      fst (replace_small_values (snd (replace_small_values l thr rep)) thr rep)
      = length l).
Proof.
  rewrite !replace_small_values_spec. cbn [fst snd]. split; intros Hrep.
  - f_equal.
    + rewrite filter_map_length. f_equal. apply filter_ext. intros x.
      destruct (x <? thr)%float eqn:E; [now rewrite Hrep | now rewrite E].
    + rewrite map_map. apply map_ext. intros x.
      destruct (x <? thr)%float eqn:E; [now rewrite Hrep | now rewrite E].
  - rewrite filter_map_length.
    induction l as [|x l IH]; [reflexivity|]. cbn [filter].
    destruct (x <? thr)%float eqn:E; rewrite ?Hrep, ?E; cbn [negb length];
      now rewrite IH.
Qed.

Lemma replace_small_values_again_witness :
  ((0 <? 0.01)%float = true
   /\ replace_small_values
        (snd (replace_small_values [2; 0.001; 0.5; 0; 0.01]%float 0.01 0)) 0.01 0
      = (3, [2; 0; 0.5; 0; 0.01]%float))
  /\ ((1 <? 0.01)%float = false
      /\ fst (replace_small_values
                (snd (replace_small_values [2; 0.001; 0.5]%float 0.01 1)) 0.01 1)
         = 3).
Proof.
  split.
  - split; [reflexivity|].
    rewrite (proj1 (replace_small_values_again [2; 0.001; 0.5; 0; 0.01]%float
                      0.01 0) eq_refl).
    vm_compute. reflexivity.
  - split; [reflexivity|].
    exact (proj2 (replace_small_values_again [2; 0.001; 0.5]%float 0.01 1)
             eq_refl).
Defined.

Lemma replace_small_values_outcome_witness :
  nth_error [2; 0.001; 0.5]%float 1 = Some 0.001%float
  /\ (0.001 <? 0.01)%float = true
  /\ nth_error (snd (replace_small_values [2; 0.001; 0.5]%float 0.01 7)) 1
     = Some 7%float
  /\ fst (replace_small_values [2; 0.5]%float 0.01 7) = length [2; 0.5]%float
  /\ snd (replace_small_values [2; 0.5]%float 0.01 7) = [2; 0.5]%float.
Proof.
  split; [reflexivity|]. split; [reflexivity|].
  split.
  - destruct (replace_small_values_outcome [2; 0.001; 0.5]%float 0.01 7)
      as (_ & _ & _ & _ & H & _).
    now apply (H 1 0.001%float).
  - destruct (replace_small_values_outcome [2; 0.5]%float 0.01 7)
      as (_ & _ & _ & _ & _ & H).
    assert (fst (replace_small_values [2; 0.5]%float 0.01 7)
            = length [2; 0.5]%float) as Hr by reflexivity.
    split; [exact Hr | exact (H Hr)].
Defined.

(** *** The closed-form solver *)

(** X4. With fewer than two poses the closed-form solver always raises the
    rank error, whatever the poses are: a decomposition that returns no more
    singular values than the system has rows returns at most three. *)
Theorem aos_needs_two_poses
    (svd : matrix -> matrix * list float * matrix) (a : ndarray) (n : nat) :
  shape a = [n; 4; 4] -> wf a -> n < 2 ->
  length (singular_values svd (stacked_a a n)) <= length (stacked_a a n) ->
  pivot_calibration_aos svd a = Raise (ValueError [msg_rank]).
Proof.
  intros Hs Hw Hn Hk.
  rewrite (pivot_calibration_aos_eq svd a n Hs Hw).
  destruct (length_stacked_a a n) as [Hl _]. rewrite Hl in Hk.
  assert (numerical_rank svd (stacked_a a n) < 6) as Hr.
  { unfold numerical_rank.
    pose proof (filter_length_le (fun s => negb (s <? 0.01)%float)
                  (singular_values svd (stacked_a a n))). lia. }
  apply Nat.ltb_lt in Hr. now rewrite Hr.
Qed.

Lemma aos_needs_two_poses_witness :
  shape poses_single = [1; 4; 4] /\ wf poses_single /\ 1 < 2
  /\ length (singular_values Jacobi.svd (stacked_a poses_single 1))
     <= length (stacked_a poses_single 1)
  /\ pivot_calibration_aos Jacobi.svd poses_single
     = Raise (ValueError [msg_rank]).
Proof.
  split; [reflexivity|]. split; [reflexivity|]. split; [lia|].
  assert (length (singular_values Jacobi.svd (stacked_a poses_single 1))
          <= length (stacked_a poses_single 1)) as Hk by (vm_compute; lia).
  split; [exact Hk|].
  exact (aos_needs_two_poses Jacobi.svd poses_single 1 eq_refl eq_refl
           ltac:(lia) Hk).
Defined.

Lemma aos_solution_rows
    (svd : matrix -> matrix * list float * matrix) (a_values b_values : matrix) :
  Forall (fun row => length row = 1) (aos_solution svd a_values b_values).
Proof.
  unfold aos_solution. destruct (svd a_values) as [[u s] v].
  unfold dot at 1. apply Forall_forall. intros row Hrow.
  apply in_map_iff in Hrow. destruct Hrow as (r & <- & _).
  now rewrite length_map, length_seq.
Qed.

Lemma Forall_firstn {A : Type} (P : A -> Prop) (k : nat) (l : list A) :
  Forall P l -> Forall P (firstn k l).
Proof.
  intros H. rewrite Forall_forall in *. intros x Hx. apply H.
  rewrite <- (firstn_skipn k l). apply in_or_app. now left.
Qed.

Lemma Forall_skipn {A : Type} (P : A -> Prop) (k : nat) (l : list A) :
  Forall P l -> Forall P (skipn k l).
Proof.
  intros H. rewrite Forall_forall in *. intros x Hx. apply H.
  rewrite <- (firstn_skipn k l). apply in_or_app. now right.
Qed.

(** X5. Whatever array it is given, when the closed-form solver returns, the
    pointer offset and the pivot location are columns of three rows with one
    entry each: arrays of shape (3, 1), not vectors of three numbers. *)
Theorem aos_returns_columns
    (svd : matrix -> matrix * list float * matrix) (a : ndarray)
    (pointer_offset pivot_location : matrix) (residual_error : float) :
  pivot_calibration_aos svd a
    = Ok (pointer_offset, pivot_location, residual_error) ->
  length pointer_offset = 3 /\ length pivot_location = 3
  /\ Forall (fun row => length row = 1) pointer_offset
  /\ Forall (fun row => length row = 1) pivot_location.
Proof.
  unfold pivot_calibration_aos.
  destruct (shape_at a 0) as [n|e]; [|discriminate]. cbn [bind].
  destruct (aos_system a) as [[a_values b_values]|e]; [|discriminate].
  cbn [bind]. destruct (aos_rank svd a_values) as [rank s'].
  destruct (rank <? 6); [discriminate|].
  cbv zeta. intros H.
  assert (pointer_offset = firstn 3 (aos_solution svd a_values b_values)
          /\ pivot_location
             = firstn 3 (skipn 3 (aos_solution svd a_values b_values)))
    as [-> ->] by (injection H as <- <- _; split; reflexivity).
  pose proof (length_aos_solution svd a_values b_values) as Hl.
  pose proof (aos_solution_rows svd a_values b_values) as Hr.
  split; [rewrite length_firstn; lia|].
  split; [rewrite length_firstn, length_skipn; lia|].
  split; [now apply Forall_firstn|].
  now apply Forall_firstn, Forall_skipn.
Qed.

Lemma aos_returns_columns_witness :
  exists po pl re,
    pivot_calibration_aos Jacobi.svd poses_exact = Ok (po, pl, re)
    /\ length po = 3 /\ length pl = 3
    /\ Forall (fun row => length row = 1) po
    /\ Forall (fun row => length row = 1) pl.
Proof.
  eexists _, _, _. split; [vm_compute; reflexivity|].
  match goal with
  | |- length ?po = 3 /\ length ?pl = 3 /\ _ =>
      exact (aos_returns_columns Jacobi.svd poses_exact po pl _
               ltac:(vm_compute; reflexivity))
  end.
Defined.

(** *** The fourth row of a pose *)

Lemma nth_flat_map_block {A B : Type} (f : A -> list B) (c : nat) (d0 : A)
    (d : B) (l : list A) (p o : nat) :
  (forall x, In x l -> length (f x) = c) -> p < length l -> o < c ->
  nth (p * c + o) (flat_map f l) d = nth o (f (nth p l d0)) d.
Proof.
  revert p. induction l as [|x l IH]; intros p Hc Hp Ho; cbn [length] in Hp;
    [lia|].
  cbn [flat_map]. destruct p as [|p].
  - cbn [Nat.mul Nat.add nth]. rewrite app_nth1; [reflexivity|].
    rewrite Hc by (now left). exact Ho.
  - rewrite app_nth2 by (rewrite Hc by (now left); lia).
    rewrite Hc by (now left).
    replace (S p * c + o - c) with (p * c + o) by lia.
    cbn [nth]. apply IH; [intros y Hy; apply Hc; now right | lia | exact Ho].
Qed.

Lemma entry_take_rows (a : ndarray) (n : nat) (idx : list nat)
    (sample : ndarray) (p j k : nat) :
  shape a = [n; 4; 4] -> wf a -> Forall (fun i => i < n) idx ->
  take_rows a idx = Ok sample -> p < length idx -> j < 4 -> k < 4 ->
  entry sample p j k = entry a (nth p idx 0) j k.
Proof.
  intros Hs Hw Hidx Ht Hp Hj Hk. pose proof (wf_length a n Hs Hw) as Hl.
  unfold take_rows in Ht. rewrite Hs in Ht.
  destruct (forallb (fun i => i <? n) idx); [|discriminate].
  assert (sample
          = {| shape := length idx :: [4; 4];
               data := flat_map (fun i => firstn (size [4; 4])
                                            (skipn (i * size [4; 4]) (data a)))
                                idx |}) as -> by congruence.
  unfold entry. cbn [data]. change (size [4; 4]) with 16.
  replace ((p * 4 + j) * 4 + k) with (p * 16 + (j * 4 + k)) by lia.
  rewrite (nth_flat_map_block _ 16 0).
  - rewrite nth_firstn. destruct (Nat.ltb_spec (j * 4 + k) 16) as [_|H]; [|lia].
    rewrite nth_skipn. f_equal. lia.
  - intros x Hx. rewrite Forall_forall in Hidx. specialize (Hidx x Hx).
    apply firstn_skipn_length. lia.
  - exact Hp.
  - lia.
Qed.

Section BottomRow.

Variable svd : matrix -> matrix * list float * matrix.
Variable generator : Type.
Variable sample_draw : generator -> nat -> nat -> list nat * generator.

Lemma stacked_agree (a b : ndarray) (n : nat) :
  agree_on_rows a b n ->
  stacked_a a n = stacked_a b n /\ stacked_b a n = stacked_b b n.
Proof.
  intros H. unfold stacked_a, stacked_b. split; apply flat_map_ext_in;
    intros i Hi; apply in_seq in Hi.
  - unfold rotation. cbn [seq map]. rewrite !(H i) by lia. reflexivity.
  - unfold translation. cbn [seq map]. rewrite !(H i) by lia. reflexivity.
Qed.

Lemma aos_agree (a b : ndarray) (n : nat) :
  shape a = [n; 4; 4] -> shape b = [n; 4; 4] -> wf a -> wf b ->
  agree_on_rows a b n ->
  pivot_calibration_aos svd a = pivot_calibration_aos svd b.
Proof.
  intros Hsa Hsb Hwa Hwb H.
  rewrite (pivot_calibration_aos_eq svd a n Hsa Hwa).
  rewrite (pivot_calibration_aos_eq svd b n Hsb Hwb).
  destruct (stacked_agree a b n H) as [-> ->]. reflexivity.
Qed.

Lemma fit_agree (a b : ndarray) (n : nat) (idx : list nat) :
  shape a = [n; 4; 4] -> shape b = [n; 4; 4] -> wf a -> wf b ->
  agree_on_rows a b n ->
  fit svd a idx = fit svd b idx.
Proof.
  intros Hsa Hsb Hwa Hwb H. unfold fit.
  destruct (forallb (fun i => i <? n) idx) eqn:E.
  - assert (Forall (fun i => i < n) idx) as Hidx.
    { apply Forall_forall. intros i Hi. rewrite forallb_forall in E.
      apply Nat.ltb_lt. now apply E. }
    destruct (take_rows_ok a n idx Hsa Hwa Hidx) as (sa & Hta & Hssa & Hwsa).
    destruct (take_rows_ok b n idx Hsb Hwb Hidx) as (sb & Htb & Hssb & Hwsb).
    rewrite Hta, Htb. cbn [bind].
    rewrite (pivot_calibration_none_eq svd sa _ Hssa).
    rewrite (pivot_calibration_none_eq svd sb _ Hssb).
    apply (aos_agree sa sb (length idx)); try assumption.
    intros p j k Hp Hj Hk.
    rewrite (entry_take_rows a n idx sa p j k) by (assumption || lia).
    rewrite (entry_take_rows b n idx sb p j k) by (assumption || lia).
    apply H; [|exact Hj | exact Hk].
    rewrite Forall_forall in Hidx. apply Hidx. now apply nth_In.
  - unfold take_rows. now rewrite Hsa, Hsb, E.
Qed.

Lemma distance_agree (a b : ndarray) (n i : nat) (po pl : matrix) :
  agree_on_rows a b n -> i < n ->
  distance a po pl i = distance b po pl i.
Proof.
  intros H Hi. unfold distance, dot. rewrite !firstn_map.
  unfold pose. cbn [seq map firstn].
  rewrite !(H i) by lia. reflexivity.
Qed.

Lemma inliers_agree (a b : ndarray) (n : nat) (po pl : matrix) (et : float) :
  agree_on_rows a b n -> inliers a po pl et n = inliers b po pl et n.
Proof.
  intros H. unfold inliers. apply filter_ext_in. intros i Hi.
  apply in_seq in Hi. now rewrite (distance_agree a b n i po pl H) by lia.
Qed.

Lemma iteration_agree (a b : ndarray) (n : nat) (et ct : float) (ee : bool)
    (i : nat) (st : ransac_state) (w : world generator) :
  shape a = [n; 4; 4] -> shape b = [n; 4; 4] -> wf a -> wf b ->
  agree_on_rows a b n ->
  ransac_iteration svd generator sample_draw a n et ct ee i st w
  = ransac_iteration svd generator sample_draw b n et ct ee i st w.
Proof.
  intros Hsa Hsb Hwa Hwb H.
  destruct (Nat.ltb_spec n 3) as [Hn|Hn].
  { unfold ransac_iteration, random_sample.
    destruct (Nat.ltb_spec n 3) as [_|Hn']; [reflexivity | lia]. }
  destruct (forallb (fun k => k <? n)
              (fst (sample_draw (rng generator w) n 3))) eqn:E.
  - assert (Forall (fun k => k < n) (fst (sample_draw (rng generator w) n 3)))
      as Hidx.
    { apply Forall_forall. intros k Hk. rewrite forallb_forall in E.
      apply Nat.ltb_lt. now apply E. }
    rewrite (ransac_iteration_eq svd generator sample_draw a n et ct ee i st w
               Hsa Hwa Hn Hidx).
    rewrite (ransac_iteration_eq svd generator sample_draw b n et ct ee i st w
               Hsb Hwb Hn Hidx).
    cbv zeta. rewrite (fit_agree a b n _ Hsa Hsb Hwa Hwb H).
    destruct (fit svd b (fst (sample_draw (rng generator w) n 3)))
      as [[[po pl] re]|e]; [|reflexivity].
    rewrite (inliers_agree a b n po pl et H).
    now rewrite (fit_agree a b n _ Hsa Hsb Hwa Hwb H).
  - unfold ransac_iteration.
    rewrite (random_sample_ok generator sample_draw n w Hn).
    unfold take_rows. now rewrite Hsa, Hsb, E.
Qed.

Lemma loop_agree (a b : ndarray) (n : nat) (et ct : float) (ee : bool)
    (l : list nat) (st : ransac_state) (w : world generator) :
  shape a = [n; 4; 4] -> shape b = [n; 4; 4] -> wf a -> wf b ->
  agree_on_rows a b n ->
  ransac_loop svd generator sample_draw a n et ct ee l st w
  = ransac_loop svd generator sample_draw b n et ct ee l st w.
Proof.
  intros Hsa Hsb Hwa Hwb H. revert st w.
  induction l as [|i l IH]; intros st w; cbn [ransac_loop]; [reflexivity|].
  rewrite (iteration_agree a b n et ct ee i st w Hsa Hsb Hwa Hwb H).
  destruct (ransac_iteration svd generator sample_draw b n et ct ee i st w)
    as [[st'|m|e] w']; [apply IH | reflexivity | reflexivity].
Qed.

(** X6. The fourth row of a pose is never read: two pose arrays of shape
    (N, 4, 4) that agree on the first three rows of every pose give the same
    result, the same output and the same generator state, in the closed-form
    solver, in the robust estimator and in the dispatcher with any
    configuration. *)
Theorem fourth_row_is_ignored (a b : ndarray) (n : nat) :
  shape a = [n; 4; 4] -> shape b = [n; 4; 4] -> wf a -> wf b ->
  agree_on_rows a b n ->
  pivot_calibration_aos svd a = pivot_calibration_aos svd b
  /\ (forall ni et ct ee w,
        pivot_calibration_with_ransac svd generator sample_draw (PyArray a)
          ni et ct ee w
        = pivot_calibration_with_ransac svd generator sample_draw (PyArray b)
            ni et ct ee w)
  /\ (forall config w,
        pivot_calibration svd generator sample_draw (PyArray a) config w
        = pivot_calibration svd generator sample_draw (PyArray b) config w).
Proof.
  intros Hsa Hsb Hwa Hwb H.
  assert (forall ni et ct ee w,
            pivot_calibration_with_ransac svd generator sample_draw (PyArray a)
              ni et ct ee w
            = pivot_calibration_with_ransac svd generator sample_draw
                (PyArray b) ni et ct ee w) as Hransac.
  { intros ni et ct ee w. unfold pivot_calibration_with_ransac, shape_at.
    rewrite Hsa, Hsb. cbn [nth_error].
    now rewrite (loop_agree a b n et ct ee _ initial_state w Hsa Hsb Hwa Hwb H). }
  split; [now apply (aos_agree a b n)|]. split; [exact Hransac|].
  intros config w. unfold pivot_calibration.
  rewrite (structural_check_ok a n Hsa), (structural_check_ok b n Hsb).
  rewrite (aos_agree a b n Hsa Hsb Hwa Hwb H).
  destruct config as [c|]; [|reflexivity].
  now rewrite Hransac.
Qed.

End BottomRow.

Lemma poses_outlier_bottom_agree :
  agree_on_rows poses_outlier poses_outlier_bottom 6.
Proof.
  intros i j k Hi Hj Hk.
  do 6 (destruct i as [|i]; [do 3 (destruct j as [|j]; [do 4 (destruct k as [|k]; [reflexivity|]); lia|]); lia|]).
  lia.
Qed.

Lemma fourth_row_is_ignored_witness :
  (shape poses_outlier = [6; 4; 4] /\ shape poses_outlier_bottom = [6; 4; 4]
   /\ wf poses_outlier /\ wf poses_outlier_bottom
   /\ agree_on_rows poses_outlier poses_outlier_bottom 6)
  /\ entry poses_outlier 0 3 3 <> entry poses_outlier_bottom 0 3 3
  /\ pivot_calibration Jacobi.svd Cyclic.generator Cyclic.sample_draw
       (PyArray poses_outlier)
       (Some (mk_configuration (Some "ransac"%string) None (Some 0.5%float)
                None None)) w0
     = pivot_calibration Jacobi.svd Cyclic.generator Cyclic.sample_draw
         (PyArray poses_outlier_bottom)
         (Some (mk_configuration (Some "ransac"%string) None (Some 0.5%float)
                  None None)) w0.
Proof.
  split; [repeat split; try reflexivity; exact poses_outlier_bottom_agree|].
  split.
  - intros H. apply (f_equal (fun v => (v <? 2)%float)) in H.
    vm_compute in H. discriminate.
  - apply (fourth_row_is_ignored Jacobi.svd Cyclic.generator Cyclic.sample_draw
             poses_outlier poses_outlier_bottom 6 eq_refl eq_refl eq_refl
             eq_refl poses_outlier_bottom_agree).
Defined.

(** *** The robust estimator: what it draws and prints *)

Section Output.

Variable svd : matrix -> matrix * list float * matrix.
Variable generator : Type.
Variable sample_draw : generator -> nat -> nat -> list nat * generator.

Lemma generator_at_front (g : generator) (n m : nat) :
  generator_at generator sample_draw g n (S m)
  = generator_at generator sample_draw (snd (sample_draw g n 3)) n m.
Proof.
  induction m as [|m IH]; [reflexivity|].
  cbn [generator_at] in *. now rewrite IH.
Qed.

Lemma iteration_ill_shaped (a : ndarray) (n : nat) (et ct : float) (ee : bool)
    (i : nat) (st : ransac_state) (w : world generator) :
  (exists d1 rest, shape a = n :: d1 :: rest /\ d1 <> 4)
  \/ (exists d2 rest, shape a = n :: 4 :: d2 :: rest /\ d2 <> 4) ->
  3 <= n ->
  Forall (fun k => k < n) (fst (sample_draw (rng generator w) n 3)) ->
  ransac_iteration svd generator sample_draw a n et ct ee i st w
  = (Next st, print generator (PrintIterationFailed i)
               (after_draw generator sample_draw n w)).
Proof.
  intros Hshape Hn Hidx. unfold ransac_iteration.
  rewrite (random_sample_ok generator sample_draw n w Hn).
  assert (forallb (fun k => k <? n) (fst (sample_draw (rng generator w) n 3))
          = true) as Hb.
  { apply forallb_forall. rewrite Forall_forall in Hidx.
    intros k Hk. apply Nat.ltb_lt. now apply Hidx. }
  unfold take_rows, pivot_calibration_none, structural_check, shape_at.
  destruct Hshape as [(d1 & rest & Hs & Hd) | (d2 & rest & Hs & Hd)];
    rewrite Hs, Hb; cbn [shape nth_error bind Nat.eqb negb];
    apply Nat.eqb_neq in Hd; rewrite Hd; reflexivity.
Qed.

Lemma loop_ill_shaped (a : ndarray) (n : nat) (et ct : float) (ee : bool)
    (m k : nat) (st : ransac_state) (w : world generator) :
  (exists d1 rest, shape a = n :: d1 :: rest /\ d1 <> 4)
  \/ (exists d2 rest, shape a = n :: 4 :: d2 :: rest /\ d2 <> 4) ->
  3 <= n ->
  (forall g, Forall (fun k => k < n) (fst (sample_draw g n 3))) ->
  ransac_loop svd generator sample_draw a n et ct ee (seq k m) st w
  = (Next st,
     {| rng := generator_at generator sample_draw (rng generator w) n m;
        stdout := stdout generator w ++ map PrintIterationFailed (seq k m) |}).
Proof.
  intros Hshape Hn Hdraw. revert k w.
  induction m as [|m IH]; intros k w; cbn [seq ransac_loop map].
  - rewrite app_nil_r. now destruct w.
  - rewrite (iteration_ill_shaped a n et ct ee k st w Hshape Hn (Hdraw _)).
    rewrite IH. cbn [print after_draw rng stdout].
    now rewrite generator_at_front, <- app_assoc.
Qed.

(** X7. On an array whose second or third dimension is not 4, with at least
    three matrices, valid parameters and a generator that draws indices
    below N, the robust estimator raises no shape error: it draws a sample
    in every iteration, prints for every iteration that it failed, and ends
    with the no-model error. *)
Theorem ransac_ill_shaped (a : ndarray) (n : nat) (ni : Z) (et ct : float)
    (ee : bool) (w : world generator) :
  (exists d1 rest, shape a = n :: d1 :: rest /\ d1 <> 4)
  \/ (exists d2 rest, shape a = n :: 4 :: d2 :: rest /\ d2 <> 4) ->
  3 <= n ->
  (forall g, Forall (fun k => k < n) (fst (sample_draw g n 3))) ->
  (1 <= ni)%Z -> (et <? 0)%float = false ->
  ((ct <? 0)%float || (1 <? ct)%float) = false ->
  pivot_calibration_with_ransac svd generator sample_draw (PyArray a)
    ni et ct ee w
  = (Raise (ValueError [msg_no_model]),
     {| rng := generator_at generator sample_draw (rng generator w) n
                 (Z.to_nat ni);
        stdout := stdout generator w
                  ++ map PrintIterationFailed (seq 0 (Z.to_nat ni)) |}).
Proof.
  intros Hshape Hn Hdraw Hni Het Hct.
  assert (exists rest, shape a = n :: rest) as [rest Hs].
  { destruct Hshape as [(d1 & rest & Hs & _) | (d2 & rest & Hs & _)];
      rewrite Hs; eauto. }
  rewrite (ransac_valid_unfold svd generator sample_draw a n rest ni et ct ee w
             Hs Hni Het Hct).
  now rewrite (loop_ill_shaped a n et ct ee _ 0 initial_state w Hshape Hn Hdraw).
Qed.

Section WellShaped.

Variable a : ndarray.
Variable n : nat.
Variables et ct : float.
Hypothesis Hs : shape a = [n; 4; 4].
Hypothesis Hw : wf a.
Hypothesis Hn : 3 <= n.
Hypothesis Hdraw : forall g, Forall (fun k => k < n) (fst (sample_draw g n 3)).
Variable g0 : generator.

Local Abbreviation gen_at := (generator_at generator sample_draw g0 n).
Local Abbreviation failed := (sample_failed svd generator sample_draw a n et g0).
Local Abbreviation cons_at := (consensus_at svd generator sample_draw a n et ct g0).

Lemma iteration_world (ee : bool) (k : nat) (st : ransac_state)
    (w : world generator) :
  rng generator w = gen_at k ->
  snd (ransac_iteration svd generator sample_draw a n et ct ee k st w)
  = {| rng := gen_at (S k);
       stdout := stdout generator w
                 ++ map PrintIterationFailed (filter failed [k]) |}.
Proof.
  intros Hg.
  rewrite (ransac_iteration_eq svd generator sample_draw a n et ct ee k st w
             Hs Hw Hn (Hdraw _)).
  cbv zeta. cbn [filter generator_at]. unfold sample_failed, inliers_at, indexes_at.
  rewrite <- Hg.
  destruct (fit svd a (fst (sample_draw (rng generator w) n 3)))
    as [[[po pl] re]|e]; cbn [map].
  - rewrite app_nil_r.
    destruct (_ && _)%bool; [destruct (fit svd a _); reflexivity | reflexivity].
  - reflexivity.
Qed.

Lemma loop_world (ee : bool) (m k : nat) (st st' : ransac_state)
    (w w' : world generator) :
  rng generator w = gen_at k ->
  ransac_loop svd generator sample_draw a n et ct ee (seq k m) st w
    = (Next st', w') ->
  w' = {| rng := gen_at (k + m);
          stdout := stdout generator w
                    ++ map PrintIterationFailed (filter failed (seq k m)) |}.
Proof.
  revert k st w. induction m as [|m IH]; intros k st w Hg;
    cbn [seq ransac_loop].
  - intros H. injection H as _ <-. cbn [filter map].
    rewrite app_nil_r, Nat.add_0_r, <- Hg. now destruct w.
  - pose proof (iteration_world ee k st w Hg) as Hw1.
    destruct (ransac_iteration svd generator sample_draw a n et ct ee k st w)
      as [[st1|m1|e1] w1]; [|discriminate|discriminate].
    cbn [snd] in Hw1. intros H.
    rewrite (IH (S k) st1 w1) in H |- *; try exact H;
      [|now rewrite Hw1|now rewrite Hw1].
    rewrite Hw1. cbn [rng stdout].
    rewrite Nat.add_succ_r, <- app_assoc, <- map_app.
    change (filter failed [k] ++ filter failed (seq (S k) m))
      with (filter failed [k] ++ filter failed (seq (S k) m)).
    rewrite <- filter_app. reflexivity.
Qed.

End WellShaped.

Lemma no_model_means_no_consensus (a : ndarray) (n : nat) (ni : Z)
    (et ct : float) (ee : bool) (w : world generator) :
  shape a = [n; 4; 4] -> wf a -> 3 <= n ->
  (forall g, Forall (fun k => k < n) (fst (sample_draw g n 3))) ->
  (1 <= ni)%Z -> (et <? 0)%float = false ->
  ((ct <? 0)%float || (1 <? ct)%float) = false ->
  fst (pivot_calibration_with_ransac svd generator sample_draw (PyArray a)
         ni et ct ee w) = Raise (ValueError [msg_no_model]) ->
  forall j, j < Z.to_nat ni ->
    consensus_at svd generator sample_draw a n et ct (rng generator w) j = false.
Proof.
  intros Hs Hw Hn Hdraw Hni Het Hct.
  rewrite (ransac_valid_unfold svd generator sample_draw a n _ ni et ct ee w
             Hs Hni Het Hct).
  destruct (loop_result_cases svd generator sample_draw a n et ct Hs Hw Hn
              Hdraw (rng generator w) ee (Z.to_nat ni) w eq_refl)
    as [[Hall _]
       | (i & inl & w1 & Hi & Hinl & Hc & Hfirst & Hg1 &
          [[Hf ->] | [(c & Hf & Hee & ->) | (c & Hf & Hee &
             [(w' & i' & inl' & c' & Hb & Hf' & ->) | (w' & ->)])]])];
    [intros _; exact Hall | | | |]; cbn [fst]; try discriminate.
  destruct c' as [[po pl] re]. discriminate.
Qed.

(** X8. For poses of shape (N, 4, 4) with N >= 3, valid parameters and a
    generator that draws indices below N: when the robust estimator ends
    with the no-model error, and when it returns a model without
    [early_exit], it has drawn exactly [number_iterations] samples and has
    printed, in order, one line for each iteration whose sample fit failed
    and for no other; a returned model is followed by one summary line,
    which reports N and the number of inliers of the best iteration. *)
Theorem ransac_draws_and_prints (a : ndarray) (n : nat) (ni : Z)
    (et ct : float) (ee : bool) (w : world generator) :
  shape a = [n; 4; 4] -> wf a -> 3 <= n ->
  (forall g, Forall (fun k => k < n) (fst (sample_draw g n 3))) ->
  (1 <= ni)%Z -> (et <? 0)%float = false ->
  ((ct <? 0)%float || (1 <? ct)%float) = false ->
  let iters := Z.to_nat ni in
  let g0 := rng generator w in
  let failures :=
    map PrintIterationFailed
        (filter (sample_failed svd generator sample_draw a n et g0)
                (seq 0 iters)) in
  let r := pivot_calibration_with_ransac svd generator sample_draw (PyArray a)
             ni et ct ee w in
  (fst r = Raise (ValueError [msg_no_model]) ->
   snd r = {| rng := generator_at generator sample_draw g0 n iters;
              stdout := stdout generator w ++ failures |})
  /\ (ee = false -> forall m, fst r = Ok m ->
        exists i inl,
          best_among svd generator sample_draw a n et ct g0 iters i inl
          /\ snd r
             = {| rng := generator_at generator sample_draw g0 n iters;
                  stdout := stdout generator w ++ failures
                            ++ [PrintSummary n (Z.of_nat (length inl)) et ct] |}).
Proof.
  intros Hs Hw Hn Hdraw Hni Het Hct iters g0 failures r. subst r.
  rewrite (ransac_valid_unfold svd generator sample_draw a n _ ni et ct ee w
             Hs Hni Het Hct).
  fold iters.
  destruct (ransac_loop svd generator sample_draw a n et ct ee (seq 0 iters)
              initial_state w) as [[st'|m|e] w'] eqn:E.
  - pose proof (loop_world a n et ct Hs Hw Hn Hdraw g0 ee iters 0
                  initial_state st' w w' eq_refl E) as Hw'.
    cbn [Nat.add] in Hw'. fold failures in Hw'.
    destruct (best_pointer_offset st') as [bpo|] eqn:Hbest; cbn [fst snd].
    + split; [discriminate|]. intros -> m _.
      destruct (loop_invariant svd generator sample_draw a n et ct Hs Hw Hn
                  Hdraw g0 iters 0 initial_state st' w w' eq_refl)
        as [[-> _] | (i & inl & c & Hb & Hf & ->)];
        [left; split; [reflexivity | intros j Hj; lia] | exact E
        | discriminate |].
      exists i, inl. split; [exact Hb|].
      rewrite highest_accepted, Hw'. unfold print. cbn [rng stdout].
      now rewrite <- app_assoc.
    + split; [intros _; exact Hw' | intros _ m H; discriminate].
  - cbn [fst snd]. split; [discriminate|]. intros -> m0 _.
    exfalso. exact (loop_no_return svd generator sample_draw a n et ct _ _ _ _ _ E).
  - cbn [fst snd]. split; [|intros _ m H; discriminate].
    intros H. injection H as ->. exfalso.
    destruct (loop_throw_origin svd generator sample_draw a n et ct Hs Hw Hn
                Hdraw g0 ee iters 0 initial_state w w' _ eq_refl E)
      as (i & inl & _ & Hinl & _ & Hf).
    destruct (fit_cases svd a n inl Hs Hw
                (inl_at_valid svd generator sample_draw a n et g0 i inl Hinl))
      as [[c Hc] | Hc]; rewrite Hc in Hf; discriminate.
Qed.

(** X9. With the same poses, parameters and generator state: when the robust
    estimator ends with the no-model error, it does so with and without
    [early_exit], with the same samples drawn and the same lines printed. *)
Theorem early_exit_keeps_no_model (a : ndarray) (n : nat) (ni : Z)
    (et ct : float) (ee : bool) (w : world generator) :
  shape a = [n; 4; 4] -> wf a -> 3 <= n ->
  (forall g, Forall (fun k => k < n) (fst (sample_draw g n 3))) ->
  (1 <= ni)%Z -> (et <? 0)%float = false ->
  ((ct <? 0)%float || (1 <? ct)%float) = false ->
  fst (pivot_calibration_with_ransac svd generator sample_draw (PyArray a)
         ni et ct ee w) = Raise (ValueError [msg_no_model]) ->
  pivot_calibration_with_ransac svd generator sample_draw (PyArray a)
    ni et ct (negb ee) w
  = pivot_calibration_with_ransac svd generator sample_draw (PyArray a)
      ni et ct ee w.
Proof.
  intros Hs Hw Hn Hdraw Hni Het Hct H.
  pose proof (no_model_means_no_consensus a n ni et ct ee w Hs Hw Hn Hdraw
                Hni Het Hct H) as Hall.
  rewrite !(ransac_valid_unfold svd generator sample_draw a n _ ni et ct _ w
              Hs Hni Het Hct).
  destruct (loop_no_consensus svd generator sample_draw a n et ct Hs Hw Hn
              Hdraw (rng generator w) ee (Z.to_nat ni) 0 initial_state w
              eq_refl) as (w1 & H1 & _); [intros j Hj; apply Hall; lia|].
  destruct (loop_no_consensus svd generator sample_draw a n et ct Hs Hw Hn
              Hdraw (rng generator w) (negb ee) (Z.to_nat ni) 0 initial_state w
              eq_refl) as (w2 & H2 & _); [intros j Hj; apply Hall; lia|].
  rewrite (loop_world a n et ct Hs Hw Hn Hdraw (rng generator w) ee _ 0
             initial_state initial_state w w1 eq_refl H1) in H1.
  rewrite (loop_world a n et ct Hs Hw Hn Hdraw (rng generator w) (negb ee) _ 0
             initial_state initial_state w w2 eq_refl H2) in H2.
  now rewrite H1, H2.
Qed.

End Output.

(** X10. On poses of shape (N, 4, 4), the inner loop of the robust estimator
    returns a count that is the length of its list of indices; the indices
    are distinct and below N, so there are at most N of them, and the array
    they select for the refit holds that many poses of shape (4, 4). *)
Theorem score_indices (a : ndarray) (n : nat) (po pl : matrix) (et : float)
    (k : nat) (idx : list nat) :
  shape a = [n; 4; 4] -> wf a ->
  score a po pl et (seq 0 n) 0 [] = Ok (k, idx) ->
  k = length idx /\ k <= n /\ NoDup idx /\ Forall (fun i => i < n) idx
  /\ exists inlier_matrices,
       take_rows a idx = Ok inlier_matrices
       /\ shape inlier_matrices = [k; 4; 4] /\ wf inlier_matrices.
Proof.
  intros Hs Hw H. rewrite (score_full a n po pl et Hs Hw) in H.
  injection H as <- <-.
  assert (Forall (fun i => i < n) (inliers a po pl et n)) as Hv.
  { apply Forall_forall. intros i Hi. unfold inliers in Hi.
    apply filter_In in Hi. destruct Hi as [Hi _]. apply in_seq in Hi. lia. }
  split; [reflexivity|].
  split.
  { unfold inliers.
    pose proof (filter_length_le
                  (fun i => (distance a po pl i <? et)%float) (seq 0 n)) as Hle.
    now rewrite length_seq in Hle. }
  split; [apply NoDup_filter, seq_NoDup|].
  split; [exact Hv|].
  exact (take_rows_ok a n _ Hs Hw Hv).
Qed.

Lemma ransac_ill_shaped_witness :
  ((exists d1 rest, shape poses_three_rows = 3 :: d1 :: rest /\ d1 <> 4)
   /\ 3 <= 3
   /\ (forall g, Forall (fun k => k < 3) (fst (Cyclic.sample_draw g 3 3)))
   /\ (1 <= 4)%Z /\ (4 <? 0)%float = false
   /\ ((0.25 <? 0)%float || (1 <? 0.25)%float) = false)
  /\ pivot_calibration_with_ransac Jacobi.svd Cyclic.generator
       Cyclic.sample_draw (PyArray poses_three_rows) 4 4 0.25 true w0
     = (Raise (ValueError [msg_no_model]),
        {| rng := 4;
           stdout := [PrintIterationFailed 0; PrintIterationFailed 1;
                      PrintIterationFailed 2; PrintIterationFailed 3] |}).
Proof.
  assert (exists d1 rest, shape poses_three_rows = 3 :: d1 :: rest /\ d1 <> 4)
    as Hshape by (exists 3, [4]; split; [reflexivity | discriminate]).
  assert (forall g, Forall (fun k => k < 3) (fst (Cyclic.sample_draw g 3 3)))
    as Hdraw by (apply cyclic_draw_valid; lia).
  split; [repeat split; try reflexivity; try lia; assumption|].
  exact (ransac_ill_shaped Jacobi.svd Cyclic.generator Cyclic.sample_draw
           poses_three_rows 3 4 4 0.25 true w0 (or_introl Hshape)
           ltac:(lia) Hdraw ltac:(lia) eq_refl eq_refl).
Defined.

Lemma ransac_draws_and_prints_witness :
  (shape poses_repeat = [6; 4; 4] /\ wf poses_repeat /\ 3 <= 6
   /\ (forall g, Forall (fun k => k < 6) (fst (Cyclic.sample_draw g 6 3)))
   /\ (1 <= 10)%Z /\ (0.5 <? 0)%float = false
   /\ ((0.25 <? 0)%float || (1 <? 0.25)%float) = false)
  /\ filter (sample_failed Jacobi.svd Cyclic.generator Cyclic.sample_draw
               poses_repeat 6 0.5 0) (seq 0 10) = [0; 1; 5; 6; 7]
  /\ exists i inl,
       best_among Jacobi.svd Cyclic.generator Cyclic.sample_draw
         poses_repeat 6 0.5 0.25 0 10 i inl
       /\ snd (pivot_calibration_with_ransac Jacobi.svd Cyclic.generator
                 Cyclic.sample_draw (PyArray poses_repeat) 10 0.5 0.25 false w0)
          = {| rng := 10;
               stdout := map PrintIterationFailed [0; 1; 5; 6; 7]
                         ++ [PrintSummary 6 (Z.of_nat (length inl)) 0.5 0.25] |}.
Proof.
  assert (forall g, Forall (fun k => k < 6) (fst (Cyclic.sample_draw g 6 3)))
    as Hdraw by (apply cyclic_draw_valid; lia).
  split; [repeat split; try reflexivity; try lia; exact Hdraw|].
  assert (filter (sample_failed Jacobi.svd Cyclic.generator Cyclic.sample_draw
                    poses_repeat 6 0.5 0) (seq 0 10) = [0; 1; 5; 6; 7]) as Hfail
    by (vm_compute; reflexivity).
  split; [exact Hfail|].
  destruct (ransac_draws_and_prints Jacobi.svd Cyclic.generator
              Cyclic.sample_draw poses_repeat 6 10 0.5 0.25 false w0
              eq_refl eq_refl ltac:(lia) Hdraw ltac:(lia) eq_refl eq_refl)
    as [_ H2].
  assert (exists m,
            fst (pivot_calibration_with_ransac Jacobi.svd Cyclic.generator
                   Cyclic.sample_draw (PyArray poses_repeat) 10 0.5 0.25
                   false w0) = Ok m) as [m Hm]
    by (eexists; vm_compute; reflexivity).
  destruct (H2 eq_refl m Hm) as (i & inl & Hb & Hsnd).
  exists i, inl. split; [exact Hb|].
  rewrite Hsnd. change (Z.to_nat 10) with 10.
  change (rng Cyclic.generator w0) with 0. rewrite Hfail. reflexivity.
Defined.

Lemma early_exit_keeps_no_model_witness :
  (shape poses_outlier = [6; 4; 4] /\ wf poses_outlier /\ 3 <= 6
   /\ (forall g, Forall (fun k => k < 6) (fst (Cyclic.sample_draw g 6 3)))
   /\ (1 <= 10)%Z /\ (0.5 <? 0)%float = false
   /\ ((0.9 <? 0)%float || (1 <? 0.9)%float) = false
   /\ fst (pivot_calibration_with_ransac Jacobi.svd Cyclic.generator
             Cyclic.sample_draw (PyArray poses_outlier) 10 0.5 0.9 true w0)
      = Raise (ValueError [msg_no_model]))
  /\ pivot_calibration_with_ransac Jacobi.svd Cyclic.generator
       Cyclic.sample_draw (PyArray poses_outlier) 10 0.5 0.9 false w0
     = pivot_calibration_with_ransac Jacobi.svd Cyclic.generator
         Cyclic.sample_draw (PyArray poses_outlier) 10 0.5 0.9 true w0.
Proof.
  assert (forall g, Forall (fun k => k < 6) (fst (Cyclic.sample_draw g 6 3)))
    as Hdraw by (apply cyclic_draw_valid; lia).
  assert (fst (pivot_calibration_with_ransac Jacobi.svd Cyclic.generator
                 Cyclic.sample_draw (PyArray poses_outlier) 10 0.5 0.9 true w0)
          = Raise (ValueError [msg_no_model])) as Hno
    by (vm_compute; reflexivity).
  split; [repeat split; try reflexivity; try lia; assumption|].
  exact (early_exit_keeps_no_model Jacobi.svd Cyclic.generator
           Cyclic.sample_draw poses_outlier 6 10 0.5 0.9 true w0
           eq_refl eq_refl ltac:(lia) Hdraw ltac:(lia) eq_refl eq_refl Hno).
Defined.

Lemma score_indices_witness :
  shape poses_outlier = [6; 4; 4] /\ wf poses_outlier
  /\ exists po pl re,
       fit Jacobi.svd poses_outlier [0; 1; 2] = Ok (po, pl, re)
       /\ score poses_outlier po pl 0.5 (seq 0 6) 0 [] = Ok (5, [0; 1; 2; 3; 4])
       /\ NoDup [0; 1; 2; 3; 4]
       /\ exists inlier_matrices,
            take_rows poses_outlier [0; 1; 2; 3; 4] = Ok inlier_matrices
            /\ shape inlier_matrices = [5; 4; 4] /\ wf inlier_matrices.
Proof.
  split; [reflexivity|]. split; [reflexivity|].
  eexists _, _, _. split; [vm_compute; reflexivity|].
  match goal with
  | |- score _ ?po ?pl _ _ _ _ = _ /\ _ =>
      assert (score poses_outlier po pl 0.5 (seq 0 6) 0 []
              = Ok (5, [0; 1; 2; 3; 4])) as Hscore
        by (vm_compute; reflexivity);
      destruct (score_indices poses_outlier 6 po pl 0.5 5 [0; 1; 2; 3; 4]
                  eq_refl eq_refl Hscore) as (_ & _ & Hnd & _ & Hrows)
  end.
  split; [exact Hscore|]. split; [exact Hnd | exact Hrows].
Defined.

(** X11. An array of one dimension, or of two with four columns, with at
    least three entries along the first, makes the robust estimator leave
    with an [IndexError] in its first iteration: the dispatcher raises it on
    the sample, the handler for [ValueError] does not catch it, one sample
    has been drawn and nothing printed.  An array of no dimension makes it
    leave with the same error before any sample is drawn.  The error is none
    of the four kinds. *)
Theorem ransac_too_few_dimensions
    (svd : matrix -> matrix * list float * matrix) (generator : Type)
    (sample_draw : generator -> nat -> nat -> list nat * generator)
    (a : ndarray) (ni : Z) (et ct : float) (ee : bool) (w : world generator) :
  (1 <= ni)%Z -> (et <? 0)%float = false ->
  ((ct <? 0)%float || (1 <? ct)%float) = false ->
  (forall n,
     shape a = [n] \/ shape a = [n; 4] -> 3 <= n ->
     Forall (fun k => k < n) (fst (sample_draw (rng generator w) n 3)) ->
     pivot_calibration_with_ransac svd generator sample_draw (PyArray a)
       ni et ct ee w
     = (Raise (IndexError ["tuple index out of range"%string]),
        after_draw generator sample_draw n w))
  /\ (shape a = [] ->
      pivot_calibration_with_ransac svd generator sample_draw (PyArray a)
        ni et ct ee w
      = (Raise (IndexError ["tuple index out of range"%string]), w))
  /\ kind_of (IndexError ["tuple index out of range"%string]) = None.
Proof.
  intros Hni Het Hct. split; [|split; [|reflexivity]].
  - intros n Hshape Hn Hidx.
    assert (exists rest, shape a = n :: rest) as [rest Hs]
      by (destruct Hshape as [-> | ->]; eauto).
    rewrite (ransac_valid_unfold svd generator sample_draw a n rest ni et ct ee
               w Hs Hni Het Hct).
    destruct (Z.to_nat ni) as [|k] eqn:Hk; [lia|].
    cbn [seq ransac_loop]. unfold ransac_iteration.
    rewrite (random_sample_ok generator sample_draw n w Hn).
    assert (forallb (fun k => k <? n) (fst (sample_draw (rng generator w) n 3))
            = true) as Hb.
    { apply forallb_forall. rewrite Forall_forall in Hidx.
      intros j Hj. apply Nat.ltb_lt. now apply Hidx. }
    unfold take_rows, pivot_calibration_none, structural_check, shape_at.
    destruct Hshape as [Hs' | Hs']; rewrite Hs', Hb; reflexivity.
  - intros Hs. unfold pivot_calibration_with_ransac.
    destruct (Z.ltb_spec ni 1) as [H|_]; [lia|].
    rewrite Het, Hct. unfold shape_at. now rewrite Hs.
Qed.

Lemma ransac_too_few_dimensions_witness :
  ((1 <= 10)%Z /\ (4 <? 0)%float = false
   /\ ((0.25 <? 0)%float || (1 <? 0.25)%float) = false
   /\ shape {| shape := [5; 4]; data := repeat 0%float 20 |} = [5; 4]
   /\ 3 <= 5
   /\ Forall (fun k => k < 5)
        (fst (Cyclic.sample_draw (rng Cyclic.generator w0) 5 3)))
  /\ pivot_calibration_with_ransac Jacobi.svd Cyclic.generator
       Cyclic.sample_draw
       (PyArray {| shape := [5; 4]; data := repeat 0%float 20 |})
       10 4 0.25 false w0
     = (Raise (IndexError ["tuple index out of range"%string]),
        {| rng := 1; stdout := [] |}).
Proof.
  assert (Forall (fun k => k < 5)
            (fst (Cyclic.sample_draw (rng Cyclic.generator w0) 5 3))) as Hidx
    by (apply cyclic_draw_valid; lia).
  split; [repeat split; try reflexivity; try lia; exact Hidx|].
  destruct (ransac_too_few_dimensions Jacobi.svd Cyclic.generator
              Cyclic.sample_draw
              {| shape := [5; 4]; data := repeat 0%float 20 |}
              10 4 0.25 false w0 ltac:(lia) eq_refl eq_refl) as [H _].
  exact (H 5 (or_intror eq_refl) ltac:(lia) Hidx).
Defined.
